(** * HoTT telemetry (telemetry_hott.c): a shallow embedding and its properties

    The development follows the C file function by function.  Machine
    integers are values of [Z] with the conversion performed by every C
    assignment written out ([to_uint8], [to_int16], ...); C's [/] and [%] are
    [Z.quot] and [Z.rem].  The module-level [static] variables form the
    record [state]; one call of [handleHoTTTelemetry] is one step of a state
    machine whose input is the record [env] (the clock, the vehicle data and
    the bytes the wire delivered since the previous call).

    [configureHoTTTelemetryPort] and [freeHoTTTelemetryPort], which open the
    port and hand it back, are outside the development: it starts from the
    state in which the port is open in receive mode. *)

From Stdlib Require Import ZArith List Bool Lia.
Import ListNotations.
Local Open Scope Z_scope.

(** ** Machine integers *)

Definition to_uint8 (z : Z) : Z := z mod 256.
Definition to_uint16 (z : Z) : Z := z mod 65536.
Definition to_uint32 (z : Z) : Z := z mod 4294967296.
Definition to_int8 (z : Z) : Z := (z + 128) mod 256 - 128.
Definition to_int16 (z : Z) : Z := (z + 32768) mod 65536 - 32768.
Definition to_int32 (z : Z) : Z := (z + 2147483648) mod 4294967296 - 2147483648.

Definition is_int32 (z : Z) : Prop := -2147483648 <= z <= 2147483647.
Definition is_uint16 (z : Z) : Prop := 0 <= z <= 65535.

(** The value of a C comparison used as an integer. *)
Definition b2z (b : bool) : Z := if b then 1 else 0.

(** ** The two response frames

    [HOTT_GPS_MSG_t] and [HOTT_EAM_MSG_t] are structs of [uint8_t] members
    declared in telemetry/hott.h.  A frame is modelled as the assignment of a
    byte to each member; the members listed are the ones telemetry_hott.c
    names.  Members it never names stay at the zero written by [memset]. *)

Module GPS.
Inductive field : Set :=
| start_byte | gps_sensor_id | sensor_id
| gps_speed_L | gps_speed_H
| pos_NS | pos_NS_dm_L | pos_NS_dm_H | pos_NS_sec_L | pos_NS_sec_H
| pos_EW | pos_EW_dm_L | pos_EW_dm_H | pos_EW_sec_L | pos_EW_sec_H
| home_distance_L | home_distance_H
| altitude_L | altitude_H
| gps_satelites | gps_fix_char | home_direction
| stop_byte.

Definition field_eq_dec (a b : field) : {a = b} + {a <> b}.
Proof. decide equality. Defined.

Definition t : Type := field -> Z.

(** [msg->f = v] *)
Definition set (f : field) (v : Z) (m : t) : t :=
  fun g => if field_eq_dec g f then v else m g.

(** [memset(msg, 0, size)] *)
Definition zero : t := fun _ => 0.
End GPS.

Module EAM.
Inductive field : Set :=
| start_byte | eam_sensor_id | warning_beeps | sensor_id | alarm_invers1
| batt1_voltage_L | batt1_voltage_H
| main_voltage_L | main_voltage_H
| stop_byte.

Definition field_eq_dec (a b : field) : {a = b} + {a <> b}.
Proof. decide equality. Defined.

Definition t : Type := field -> Z.

Definition set (f : field) (v : Z) (m : t) : t :=
  fun g => if field_eq_dec g f then v else m g.

Definition zero : t := fun _ => 0.
End EAM.

Definition HOTT_GPS_MSG_t : Type := GPS.t.
Definition HOTT_EAM_MSG_t : Type := EAM.t.

(** ** What telemetry/hott.h declares

    The header is not part of the sources at hand: its constants, the sizes
    of the two structs and their memory images (the bytes seen through the
    cast [(uint8_t * )&hottGPSMessage]) are parameters of the development. *)

Class hott_h : Type := {
  HOTT_BINARY_MODE_REQUEST_ID : Z;
  HOTT_TELEMETRY_GPS_SENSOR_ID : Z;
  HOTT_GPS_SENSOR_TEXT_ID : Z;
  HOTT_TELEMETRY_EAM_SENSOR_ID : Z;
  HOTT_EAM_SENSOR_TEXT_ID : Z;
  HOTT_GPS_ALTITUDE_OFFSET : Z;
  sizeof_HOTT_GPS_MSG_t : Z;
  sizeof_HOTT_EAM_MSG_t : Z;
  gps_image : HOTT_GPS_MSG_t -> list Z;
  eam_image : HOTT_EAM_MSG_t -> list Z
}.

(** ** Constants of telemetry_hott.c *)

Definition HOTT_MESSAGE_PREPARATION_FREQUENCY_5_HZ : Z := (1000 * 1000) / 5.
Definition HOTT_RX_SCHEDULE : Z := 4000.
Definition HOTT_TX_DELAY_US : Z := 3000.
(** [sizeof(hottMsgCrc)], a [uint8_t] *)
Definition HOTT_CRC_SIZE : Z := 1.

Definition GPS_FIX_CHAR_NONE : Z := 45. (* '-' *)
Definition GPS_FIX_CHAR_2D : Z := 50.   (* '2' *)
Definition GPS_FIX_CHAR_3D : Z := 51.   (* '3' *)
Definition GPS_FIX_CHAR_DGPS : Z := 68. (* 'D' *)

Definition LAT : nat := 0.
Definition LON : nat := 1.

(** ** The serial port

    Modelled from the spec: the serial I/O provider (drivers/serial.c) is an
    external collaborator "exposing ... set-mode, write-byte, read-byte,
    bytes-waiting-count".  The port is its mode, the queue of received bytes
    (oldest first) and the log of what the telemetry code did to the line. *)

Inductive portMode_t : Set := MODE_RX | MODE_TX.

Inductive portEvent : Set :=
| EvSetMode (m : portMode_t)
| EvWrite (c : Z).

Record serialPort_t : Type := mkPort {
  mode : portMode_t;
  rxBuffer : list Z;
  portLog : list portEvent
}.

(** Modelled from the spec: set-mode. *)
Definition serialSetMode (p : serialPort_t) (m : portMode_t) : serialPort_t :=
  mkPort m (rxBuffer p) (portLog p ++ [EvSetMode m]).

(** Modelled from the spec: write-byte. *)
Definition serialWrite (p : serialPort_t) (c : Z) : serialPort_t :=
  mkPort (mode p) (rxBuffer p) (portLog p ++ [EvWrite c]).

(** Modelled from the spec: bytes-waiting-count. *)
Definition serialTotalBytesWaiting (p : serialPort_t) : Z :=
  Z.of_nat (length (rxBuffer p)).

(** Modelled from the spec: read-byte; the oldest waiting byte is removed. *)
Definition serialRead (p : serialPort_t) : Z * serialPort_t :=
  match rxBuffer p with
  | [] => (0, p)
  | c :: rest => (c, mkPort (mode p) rest (portLog p))
  end.

(** Modelled from the spec: bytes that arrive on the wire are queued behind
    the ones already waiting. *)
Definition serialReceive (bytes : list Z) (p : serialPort_t) : serialPort_t :=
  mkPort (mode p) (rxBuffer p ++ bytes) (portLog p).

(** ** Inputs of one call *)

Inductive sensors_e : Set := SENSOR_GPS.

Record env : Type := mkEnv {
  micros : Z;
  f_GPS_FIX : bool;
  sensors : sensors_e -> bool;
  GPS_numSat : Z;
  GPS_coord : nat -> Z;
  GPS_speed : Z;
  GPS_distanceToHome : Z;
  GPS_directionToHome : Z;
  GPS_altitude : Z;
  vbat : Z;
  wire_in : list Z
}.

(** ** Module state *)

(** The buffers [hottMsg] can point into. *)
Inductive buffer : Set := GPSMessage | EAMMessage.

(** [uint8_t *hottMsg]: [None] is [NULL], [Some (b, i)] is [(uint8_t * )&b + i]. *)
Definition pointer : Type := option (buffer * nat).

Record state : Type := mkState {
  lastHoTTRequestCheckAt : Z;
  lastMessagesPreparedAt : Z;
  hottIsSending : bool;
  hottMsg : pointer;
  hottMsgRemainingBytesToSendCount : Z;
  hottMsgCrc : Z;
  hottPort : serialPort_t;
  hottGPSMessage : HOTT_GPS_MSG_t;
  hottEAMMessage : HOTT_EAM_MSG_t;
  lookingForRequest : bool;   (* static in hottCheckSerialData *)
  serialTimer : Z;            (* static in handleHoTTTelemetry *)
  serialWrites : Z            (* static in hottSerialWrite *)
}.

Definition set_lastHoTTRequestCheckAt (v : Z) (s : state) : state :=
  mkState v (lastMessagesPreparedAt s) (hottIsSending s) (hottMsg s)
    (hottMsgRemainingBytesToSendCount s) (hottMsgCrc s) (hottPort s)
    (hottGPSMessage s) (hottEAMMessage s) (lookingForRequest s)
    (serialTimer s) (serialWrites s).
Definition set_lastMessagesPreparedAt (v : Z) (s : state) : state :=
  mkState (lastHoTTRequestCheckAt s) v (hottIsSending s) (hottMsg s)
    (hottMsgRemainingBytesToSendCount s) (hottMsgCrc s) (hottPort s)
    (hottGPSMessage s) (hottEAMMessage s) (lookingForRequest s)
    (serialTimer s) (serialWrites s).
Definition set_hottIsSending (v : bool) (s : state) : state :=
  mkState (lastHoTTRequestCheckAt s) (lastMessagesPreparedAt s) v (hottMsg s)
    (hottMsgRemainingBytesToSendCount s) (hottMsgCrc s) (hottPort s)
    (hottGPSMessage s) (hottEAMMessage s) (lookingForRequest s)
    (serialTimer s) (serialWrites s).
Definition set_hottMsg (v : pointer) (s : state) : state :=
  mkState (lastHoTTRequestCheckAt s) (lastMessagesPreparedAt s)
    (hottIsSending s) v (hottMsgRemainingBytesToSendCount s) (hottMsgCrc s)
    (hottPort s) (hottGPSMessage s) (hottEAMMessage s) (lookingForRequest s)
    (serialTimer s) (serialWrites s).
Definition set_hottMsgRemainingBytesToSendCount (v : Z) (s : state) : state :=
  mkState (lastHoTTRequestCheckAt s) (lastMessagesPreparedAt s)
    (hottIsSending s) (hottMsg s) v (hottMsgCrc s) (hottPort s)
    (hottGPSMessage s) (hottEAMMessage s) (lookingForRequest s)
    (serialTimer s) (serialWrites s).
Definition set_hottMsgCrc (v : Z) (s : state) : state :=
  mkState (lastHoTTRequestCheckAt s) (lastMessagesPreparedAt s)
    (hottIsSending s) (hottMsg s) (hottMsgRemainingBytesToSendCount s) v
    (hottPort s) (hottGPSMessage s) (hottEAMMessage s) (lookingForRequest s)
    (serialTimer s) (serialWrites s).
Definition set_hottPort (v : serialPort_t) (s : state) : state :=
  mkState (lastHoTTRequestCheckAt s) (lastMessagesPreparedAt s)
    (hottIsSending s) (hottMsg s) (hottMsgRemainingBytesToSendCount s)
    (hottMsgCrc s) v (hottGPSMessage s) (hottEAMMessage s)
    (lookingForRequest s) (serialTimer s) (serialWrites s).
Definition set_hottGPSMessage (v : HOTT_GPS_MSG_t) (s : state) : state :=
  mkState (lastHoTTRequestCheckAt s) (lastMessagesPreparedAt s)
    (hottIsSending s) (hottMsg s) (hottMsgRemainingBytesToSendCount s)
    (hottMsgCrc s) (hottPort s) v (hottEAMMessage s) (lookingForRequest s)
    (serialTimer s) (serialWrites s).
Definition set_hottEAMMessage (v : HOTT_EAM_MSG_t) (s : state) : state :=
  mkState (lastHoTTRequestCheckAt s) (lastMessagesPreparedAt s)
    (hottIsSending s) (hottMsg s) (hottMsgRemainingBytesToSendCount s)
    (hottMsgCrc s) (hottPort s) (hottGPSMessage s) v (lookingForRequest s)
    (serialTimer s) (serialWrites s).
Definition set_lookingForRequest (v : bool) (s : state) : state :=
  mkState (lastHoTTRequestCheckAt s) (lastMessagesPreparedAt s)
    (hottIsSending s) (hottMsg s) (hottMsgRemainingBytesToSendCount s)
    (hottMsgCrc s) (hottPort s) (hottGPSMessage s) (hottEAMMessage s) v
    (serialTimer s) (serialWrites s).
Definition set_serialTimer (v : Z) (s : state) : state :=
  mkState (lastHoTTRequestCheckAt s) (lastMessagesPreparedAt s)
    (hottIsSending s) (hottMsg s) (hottMsgRemainingBytesToSendCount s)
    (hottMsgCrc s) (hottPort s) (hottGPSMessage s) (hottEAMMessage s)
    (lookingForRequest s) v (serialWrites s).
Definition set_serialWrites (v : Z) (s : state) : state :=
  mkState (lastHoTTRequestCheckAt s) (lastMessagesPreparedAt s)
    (hottIsSending s) (hottMsg s) (hottMsgRemainingBytesToSendCount s)
    (hottMsgCrc s) (hottPort s) (hottGPSMessage s) (hottEAMMessage s)
    (lookingForRequest s) (serialTimer s) v.

Section TelemetryHoTT.

Context {hdr : hott_h}.

(** ** Frame initialisation *)

Definition initialiseEAMMessage : HOTT_EAM_MSG_t :=
  let msg := EAM.zero in
  let msg := EAM.set EAM.start_byte 124 msg in
  let msg := EAM.set EAM.eam_sensor_id HOTT_TELEMETRY_EAM_SENSOR_ID msg in
  let msg := EAM.set EAM.sensor_id HOTT_EAM_SENSOR_TEXT_ID msg in
  EAM.set EAM.stop_byte 125 msg.

Definition initialiseGPSMessage : HOTT_GPS_MSG_t :=
  let msg := GPS.zero in
  let msg := GPS.set GPS.start_byte 124 msg in
  let msg := GPS.set GPS.gps_sensor_id HOTT_TELEMETRY_GPS_SENSOR_ID msg in
  let msg := GPS.set GPS.sensor_id HOTT_GPS_SENSOR_TEXT_ID msg in
  GPS.set GPS.stop_byte 125 msg.

(** ** Frame codec *)

Definition addGPSCoordinates (hottGPSMessage : HOTT_GPS_MSG_t)
    (latitude longitude : Z) : HOTT_GPS_MSG_t :=
  let deg := to_int16 (Z.quot latitude 10000000) in
  let sec := to_int32 ((latitude - deg * 10000000) * 6) in
  let min := to_int8 (Z.quot sec 1000000) in
  let sec := to_int32 (Z.quot (Z.rem sec 1000000) 100) in
  let degMin := to_uint16 (deg * 100 + min) in
  let m := hottGPSMessage in
  let m := GPS.set GPS.pos_NS (b2z (latitude <? 0)) m in
  let m := GPS.set GPS.pos_NS_dm_L (to_uint8 degMin) m in
  let m := GPS.set GPS.pos_NS_dm_H (to_uint8 (Z.shiftr degMin 8)) m in
  let m := GPS.set GPS.pos_NS_sec_L (to_uint8 sec) m in
  let m := GPS.set GPS.pos_NS_sec_H (to_uint8 (Z.shiftr sec 8)) m in
  let deg := to_int16 (Z.quot longitude 10000000) in
  let sec := to_int32 ((longitude - deg * 10000000) * 6) in
  let min := to_int8 (Z.quot sec 1000000) in
  let sec := to_int32 (Z.quot (Z.rem sec 1000000) 100) in
  let degMin := to_uint16 (deg * 100 + min) in
  let m := GPS.set GPS.pos_EW (b2z (longitude <? 0)) m in
  let m := GPS.set GPS.pos_EW_dm_L (to_uint8 degMin) m in
  let m := GPS.set GPS.pos_EW_dm_H (to_uint8 (Z.shiftr degMin 8)) m in
  let m := GPS.set GPS.pos_EW_sec_L (to_uint8 sec) m in
  GPS.set GPS.pos_EW_sec_H (to_uint8 (Z.shiftr sec 8)) m.

Definition hottPrepareGPSResponse (e : env)
    (hottGPSMessage : HOTT_GPS_MSG_t) : HOTT_GPS_MSG_t :=
  let m := GPS.set GPS.gps_satelites (to_uint8 (GPS_numSat e)) hottGPSMessage in
  if negb (f_GPS_FIX e) then
    GPS.set GPS.gps_fix_char GPS_FIX_CHAR_NONE m
  else
    let m :=
      if 5 <=? GPS_numSat e
      then GPS.set GPS.gps_fix_char GPS_FIX_CHAR_3D m
      else GPS.set GPS.gps_fix_char GPS_FIX_CHAR_2D m in
    let m := addGPSCoordinates m (GPS_coord e LAT) (GPS_coord e LON) in
    let speed := to_uint16 (Z.quot (GPS_speed e) 100 * 36) in
    let m := GPS.set GPS.gps_speed_L (to_uint8 (Z.land speed 255)) m in
    let m := GPS.set GPS.gps_speed_H (to_uint8 (Z.shiftr speed 8)) m in
    let m := GPS.set GPS.home_distance_L
               (to_uint8 (Z.land (GPS_distanceToHome e) 255)) m in
    let m := GPS.set GPS.home_distance_H
               (to_uint8 (Z.shiftr (GPS_distanceToHome e) 8)) m in
    let hottGpsAltitude :=
      to_uint16 (Z.quot (GPS_altitude e) 10 + HOTT_GPS_ALTITUDE_OFFSET) in
    let m := GPS.set GPS.altitude_L (to_uint8 (Z.land hottGpsAltitude 255)) m in
    let m := GPS.set GPS.altitude_H (to_uint8 (Z.shiftr hottGpsAltitude 8)) m in
    GPS.set GPS.home_direction (to_uint8 (GPS_directionToHome e)) m.

Definition hottEAMUpdateBattery (e : env)
    (hottEAMMessage : HOTT_EAM_MSG_t) : HOTT_EAM_MSG_t :=
  let m := hottEAMMessage in
  let m := EAM.set EAM.main_voltage_L (to_uint8 (Z.land (vbat e) 255)) m in
  let m := EAM.set EAM.main_voltage_H (to_uint8 (Z.shiftr (vbat e) 8)) m in
  let m := EAM.set EAM.batt1_voltage_L (to_uint8 (Z.land (vbat e) 255)) m in
  EAM.set EAM.batt1_voltage_H (to_uint8 (Z.shiftr (vbat e) 8)) m.

Definition hottPrepareEAMResponse (e : env)
    (hottEAMMessage : HOTT_EAM_MSG_t) : HOTT_EAM_MSG_t :=
  let m := EAM.set EAM.warning_beeps 0 hottEAMMessage in
  let m := EAM.set EAM.alarm_invers1 0 m in
  hottEAMUpdateBattery e m.

(** ** Frame transmitter *)

(** [*p] for a pointer into one of the two frames. *)
Definition deref (s : state) (b : buffer) (i : nat) : Z :=
  match b with
  | GPSMessage => nth i (gps_image (hottGPSMessage s)) 0
  | EAMMessage => nth i (eam_image (hottEAMMessage s)) 0
  end.

Definition hottSerialWrite (c : Z) (s : state) : state :=
  let s := set_serialWrites (to_uint8 (serialWrites s + 1)) s in
  set_hottPort (serialWrite (hottPort s) c) s.

Definition hottSendResponse (b : buffer) (length : Z) (s : state) : state :=
  if hottIsSending s then s
  else
    let s := set_hottMsg (Some (b, 0%nat)) s in
    set_hottMsgRemainingBytesToSendCount (to_uint8 (length + HOTT_CRC_SIZE)) s.

Definition hottSendGPSResponse (s : state) : state :=
  hottSendResponse GPSMessage sizeof_HOTT_GPS_MSG_t s.

Definition hottSendEAMResponse (s : state) : state :=
  hottSendResponse EAMMessage sizeof_HOTT_EAM_MSG_t s.

Definition hottPrepareMessages (e : env) (s : state) : state :=
  let s := set_hottEAMMessage (hottPrepareEAMResponse e (hottEAMMessage s)) s in
  set_hottGPSMessage (hottPrepareGPSResponse e (hottGPSMessage s)) s.

(** ** Request detector *)

Definition processBinaryModeRequest (e : env) (address : Z) (s : state)
    : state :=
  if address =? 138 (* 0x8A *) then
    if sensors e SENSOR_GPS then hottSendGPSResponse s else s
  else if address =? 142 (* 0x8E *) then
    hottSendEAMResponse s
  else s.

(** [while (serialTotalBytesWaiting(hottPort) > 0) serialRead(hottPort);]
    Every iteration removes one waiting byte, so the number of waiting bytes
    bounds the number of iterations. *)
Fixpoint flushLoop (fuel : nat) (p : serialPort_t) : serialPort_t :=
  match fuel with
  | O => p
  | S fuel' =>
      if 0 <? serialTotalBytesWaiting p
      then flushLoop fuel' (snd (serialRead p))
      else p
  end.

Definition flushHottRxBuffer (s : state) : state :=
  set_hottPort (flushLoop (length (rxBuffer (hottPort s))) (hottPort s)) s.

Definition hottCheckSerialData (e : env) (currentMicros : Z) (s : state)
    : state :=
  let bytesWaiting := to_uint8 (serialTotalBytesWaiting (hottPort s)) in
  if bytesWaiting <=? 1 then s
  else if negb (bytesWaiting =? 2) then
    set_lookingForRequest true (flushHottRxBuffer s)
  else if lookingForRequest s then
    set_lookingForRequest false (set_lastHoTTRequestCheckAt currentMicros s)
  else
    let enoughTimePassed :=
      HOTT_RX_SCHEDULE <=? to_uint32 (currentMicros - lastHoTTRequestCheckAt s) in
    if negb enoughTimePassed then s
    else
      let s := set_lookingForRequest true s in
      let (requestId, p) := serialRead (hottPort s) in
      let (address, p) := serialRead p in
      let s := set_hottPort p s in
      if requestId =? HOTT_BINARY_MODE_REQUEST_ID
      then processBinaryModeRequest e address s
      else s.

(** [hottSendTelemetryData] is only called with [hottMsg] non-null (the
    caller returns on [!hottMsg]); on [NULL] the model leaves the state as it
    is where the C code would dereference the null pointer. *)
Definition hottSendTelemetryData (s : state) : state :=
  if negb (hottIsSending s) then
    let s := set_hottIsSending true s in
    let s := set_hottPort (serialSetMode (hottPort s) MODE_TX) s in
    set_hottMsgCrc 0 s
  else if hottMsgRemainingBytesToSendCount s =? 0 then
    let s := set_hottMsg None s in
    let s := set_hottIsSending false s in
    let s := set_hottPort (serialSetMode (hottPort s) MODE_RX) s in
    flushHottRxBuffer s
  else
    let s := set_hottMsgRemainingBytesToSendCount
               (to_uint8 (hottMsgRemainingBytesToSendCount s - 1)) s in
    if hottMsgRemainingBytesToSendCount s =? 0 then
      let c := hottMsgCrc s in
      let s := set_hottMsgCrc (to_uint8 (c + 1)) s in
      hottSerialWrite c s
    else
      match hottMsg s with
      | None => s
      | Some (b, i) =>
          let s := set_hottMsgCrc (to_uint8 (hottMsgCrc s + deref s b i)) s in
          let c := deref s b i in
          let s := set_hottMsg (Some (b, S i)) s in
          hottSerialWrite c s
      end.

(** ** Session dispatcher *)

Definition shouldPrepareHoTTMessages (currentMicros : Z) (s : state) : bool :=
  HOTT_MESSAGE_PREPARATION_FREQUENCY_5_HZ
    <=? to_uint32 (currentMicros - lastMessagesPreparedAt s).

Definition shouldCheckForHoTTRequest (s : state) : bool :=
  if hottIsSending s then false else true.

Definition handleHoTTTelemetry (e : env) (s : state) : state :=
  let now := micros e in
  let s :=
    if shouldPrepareHoTTMessages now s
    then set_lastMessagesPreparedAt now (hottPrepareMessages e s)
    else s in
  let s :=
    if shouldCheckForHoTTRequest s then hottCheckSerialData e now s else s in
  match hottMsg s with
  | None => s
  | Some _ =>
      if hottIsSending s && (to_uint32 (now - serialTimer s) <? HOTT_TX_DELAY_US)
      then s
      else set_serialTimer now (hottSendTelemetryData s)
  end.

(** One scheduling period: the bytes the remote device put on the wire since
    the previous call are queued by the driver, then the entry point runs. *)
Definition tick (e : env) (s : state) : state :=
  handleHoTTTelemetry e
    (set_hottPort (serialReceive (wire_in e) (hottPort s)) s).

Fixpoint run (es : list env) (s : state) : state :=
  match es with
  | [] => s
  | e :: es' => run es' (tick e s)
  end.

(** The calls made while one send is active: the run stops at the first
    state in which no send is in progress. *)
Fixpoint run_send (es : list env) (s : state) : state :=
  match es with
  | [] => s
  | e :: es' => if hottIsSending s then run_send es' (tick e s) else s
  end.

(** The state after [initHoTTTelemetry] and [configureHoTTTelemetryPort]:
    the statics hold their initialisers and the port is open in
    [HOTT_INITIAL_PORT_MODE]. *)
Definition initial_state : state :=
  mkState 0 0 false None 0 0 (mkPort MODE_RX [] [])
    initialiseGPSMessage initialiseEAMMessage true 0 0.

End TelemetryHoTT.

(** ** A concrete header

    An instance of [hott_h] on which the model can be evaluated: 44-byte
    frames laid out member after member, the members the C file never names
    being zero. *)

Definition sample_gps_image (m : HOTT_GPS_MSG_t) : list Z :=
  [m GPS.start_byte; m GPS.gps_sensor_id; 0; m GPS.sensor_id; 0; 0; 0;
   m GPS.gps_speed_L; m GPS.gps_speed_H;
   m GPS.pos_NS; m GPS.pos_NS_dm_L; m GPS.pos_NS_dm_H;
   m GPS.pos_NS_sec_L; m GPS.pos_NS_sec_H;
   m GPS.pos_EW; m GPS.pos_EW_dm_L; m GPS.pos_EW_dm_H;
   m GPS.pos_EW_sec_L; m GPS.pos_EW_sec_H;
   m GPS.home_distance_L; m GPS.home_distance_H;
   m GPS.altitude_L; m GPS.altitude_H; 0; 0; 0;
   m GPS.gps_satelites; m GPS.gps_fix_char; m GPS.home_direction]
  ++ repeat 0 14 ++ [m GPS.stop_byte].

Definition sample_eam_image (m : HOTT_EAM_MSG_t) : list Z :=
  [m EAM.start_byte; m EAM.eam_sensor_id; m EAM.warning_beeps;
   m EAM.sensor_id; m EAM.alarm_invers1; 0]
  ++ repeat 0 14
  ++ [m EAM.batt1_voltage_L; m EAM.batt1_voltage_H]
  ++ repeat 0 8
  ++ [m EAM.main_voltage_L; m EAM.main_voltage_H]
  ++ repeat 0 11 ++ [m EAM.stop_byte].

Definition sample_hott_h : hott_h := {|
  HOTT_BINARY_MODE_REQUEST_ID := 128;
  HOTT_TELEMETRY_GPS_SENSOR_ID := 138;
  HOTT_GPS_SENSOR_TEXT_ID := 160;
  HOTT_TELEMETRY_EAM_SENSOR_ID := 142;
  HOTT_EAM_SENSOR_TEXT_ID := 224;
  HOTT_GPS_ALTITUDE_OFFSET := 500;
  sizeof_HOTT_GPS_MSG_t := 44;
  sizeof_HOTT_EAM_MSG_t := 44;
  gps_image := sample_gps_image;
  eam_image := sample_eam_image
|}.

(** Vehicle data without a fix and with the GPS sensor enabled, read at time
    [t] after [bytes] arrived on the wire. *)
Definition sample_env (t : Z) (bytes : list Z) : env :=
  mkEnv t false (fun _ => true) 0 (fun _ => 0) 0 0 0 0 0 bytes.

(** [n] calls, [dt] microseconds apart, the first at time [t]; nothing
    arrives on the wire. *)
Fixpoint sample_calls (n : nat) (t dt : Z) : list env :=
  match n with
  | O => []
  | S n' => sample_env t [] :: sample_calls n' (t + dt) dt
  end.

(** Vehicle data with a fix, seven satellites and ground speed [speed]. *)
Definition sample_fix_env (speed : Z) : env :=
  mkEnv 0 true (fun _ => true) 7 (fun _ => 0) speed 0 0 0 0 [].

(** Vehicle data of a craft whose GPS sensor is not enabled. *)
Definition sample_no_gps_env (t : Z) : env :=
  mkEnv t false (fun _ => false) 0 (fun _ => 0) 0 0 0 0 0 [].

(** The state one call after start-up when a request for [address] has
    arrived: the two bytes wait and the window is armed at time 0. *)
Definition sample_armed (address : Z) : state :=
  tick (hdr := sample_hott_h) (sample_env 0 [128; address])
    (initial_state (hdr := sample_hott_h)).

(** The state in which the Battery/EAM send has just been started by the
    call at time 4000. *)
Definition sample_sending : state :=
  tick (hdr := sample_hott_h) (sample_env 4000 []) (sample_armed 142).

(** Vehicle data in flight: a fix with seven satellites, 150 m from home at
    bearing -90, altitude 123.4 m, battery at 12.6 V. *)
Definition sample_flight_env : env :=
  mkEnv 0 true (fun _ => true) 7 (fun _ => 0) 0 1500 (-90) 1234 126 [].

(** The armed state with both reference times shortly before the 32-bit
    clock rolls over. *)
Definition sample_before_rollover : state :=
  set_lastMessagesPreparedAt 4294967000
    (set_lastHoTTRequestCheckAt 4294967000 (sample_armed 142)).

(** A start-up, a request for the Battery/EAM frame and the first calls of
    its answer. *)
Definition sample_execution : list env :=
  sample_env 0 [128; 142] :: sample_env 4000 [] :: sample_calls 3 7000 3000.

(** ** Reference formulas

    These follow the words of the specification, not the code: the
    coordinate formula of the frame codec (with C's truncating division and
    remainder, and no integer width), the little-endian split of a 16-bit
    value, and the checksum of a byte sequence. *)

Definition spec_deg (v : Z) : Z := Z.quot v 10000000.
Definition spec_sec0 (v : Z) : Z := (v - spec_deg v * 10000000) * 6.
Definition spec_min (v : Z) : Z := Z.quot (spec_sec0 v) 1000000.
Definition spec_sec (v : Z) : Z := Z.quot (Z.rem (spec_sec0 v) 1000000) 100.
Definition spec_degMin (v : Z) : Z := spec_deg v * 100 + spec_min v.

Definition lo8 (z : Z) : Z := z mod 256.
Definition hi8 (z : Z) : Z := (z / 256) mod 256.

Definition sum_bytes (l : list Z) : Z := fold_right Z.add 0 l.
Definition checksum (l : list Z) : Z := sum_bytes l mod 256.

(** What the codec stores for one coordinate [v]: the hemisphere flag, the
    two bytes of the low 16 bits of [degMin] and of [sec], and, for a
    coordinate that is not negative, the values [degMin] and [sec]
    themselves. *)
Definition packs_coordinate (v flag dm_L dm_H sec_L sec_H : Z) : Prop :=
  flag = b2z (v <? 0) /\
  dm_L = lo8 (spec_degMin v) /\ dm_H = hi8 (spec_degMin v) /\
  sec_L = lo8 (spec_sec v) /\ sec_H = hi8 (spec_sec v) /\
  (0 <= v ->
   dm_L + 256 * dm_H = spec_degMin v /\ sec_L + 256 * sec_H = spec_sec v).

(** ** Vocabulary for the properties of a send *)

Section SendVocabulary.

Context {hdr : hott_h}.

Definition sizeof_buffer (b : buffer) : Z :=
  match b with
  | GPSMessage => sizeof_HOTT_GPS_MSG_t
  | EAMMessage => sizeof_HOTT_EAM_MSG_t
  end.

(** The remaining-byte counter is a [uint8_t]: a frame and its checksum
    byte are counted without wrapping when the frame has at most 254 bytes. *)
Definition sizes_fit : Prop :=
  forall b, 0 <= sizeof_buffer b <= 254.

(** No send is pending or active. *)
Definition idle (s : state) : Prop :=
  hottIsSending s = false /\ hottMsg s = None.

(** The first two things a call does: the driver has queued the bytes that
    arrived, and the frames are refreshed when the refresh interval is over. *)
Definition arrived (e : env) (s : state) : state :=
  set_hottPort (serialReceive (wire_in e) (hottPort s)) s.

Definition refreshed (e : env) (s : state) : state :=
  if shouldPrepareHoTTMessages (micros e) s
  then set_lastMessagesPreparedAt (micros e) (hottPrepareMessages e s)
  else s.

(** Where a send of buffer [b] stands, [log0] being the port log up to and
    including the switch to transmit mode: [P] are the payload bytes written
    so far. *)
Inductive phase (b : buffer) (log0 : list portEvent) (s : state) : Prop :=
| Payload (P : list Z) :
    hottIsSending s = true ->
    hottMsg s = Some (b, length P) ->
    Z.of_nat (length P) <= sizeof_buffer b ->
    hottMsgRemainingBytesToSendCount s
      = sizeof_buffer b + 1 - Z.of_nat (length P) ->
    hottMsgCrc s = checksum P ->
    mode (hottPort s) = MODE_TX ->
    portLog (hottPort s) = log0 ++ map EvWrite P ->
    phase b log0 s
| Trailer (P : list Z) :
    hottIsSending s = true ->
    hottMsg s = Some (b, length P) ->
    Z.of_nat (length P) = sizeof_buffer b ->
    hottMsgRemainingBytesToSendCount s = 0 ->
    mode (hottPort s) = MODE_TX ->
    portLog (hottPort s) = log0 ++ map EvWrite (P ++ [checksum P]) ->
    phase b log0 s
| Done (P : list Z) :
    hottIsSending s = false ->
    hottMsg s = None ->
    Z.of_nat (length P) = sizeof_buffer b ->
    mode (hottPort s) = MODE_RX ->
    rxBuffer (hottPort s) = [] ->
    portLog (hottPort s)
      = log0 ++ map EvWrite (P ++ [checksum P]) ++ [EvSetMode MODE_RX] ->
    phase b log0 s.

(** The bytes written between two states of the port log. *)
Fixpoint writes (l : list portEvent) : list Z :=
  match l with
  | [] => []
  | EvWrite c :: l' => c :: writes l'
  | EvSetMode _ :: l' => writes l'
  end.

Definition written (s s' : state) : list Z :=
  writes (skipn (length (portLog (hottPort s))) (portLog (hottPort s'))).

(** The calls [es] made while a send is active: for each call its clock
    value and the bytes it wrote. *)
Fixpoint send_trace (es : list env) (s : state) : list (Z * list Z) :=
  match es with
  | [] => []
  | e :: es' =>
      if hottIsSending s
      then (micros e, written s (tick e s)) :: send_trace es' (tick e s)
      else []
  end.

Definition wrote (c : Z * list Z) : bool :=
  match snd c with [] => false | _ :: _ => true end.

(** The clock values of the calls that wrote, and all bytes written. *)
Definition writing_times (tr : list (Z * list Z)) : list Z :=
  map fst (filter wrote tr).

Definition trace_bytes (tr : list (Z * list Z)) : list Z :=
  concat (map snd tr).

(** Each clock value is at least [HOTT_TX_DELAY_US] after the one before,
    on the 32-bit microsecond clock; [t0] comes before the first. *)
Fixpoint spaced (t0 : Z) (ts : list Z) : Prop :=
  match ts with
  | [] => True
  | t :: ts' => HOTT_TX_DELAY_US <= to_uint32 (t - t0) /\ spaced t ts'
  end.

End SendVocabulary.

(** ** Vocabulary for executions *)

(** A frame whose members all hold a byte. *)
Definition GPS_bytes (m : HOTT_GPS_MSG_t) : Prop := forall f, 0 <= m f <= 255.
Definition EAM_bytes (m : HOTT_EAM_MSG_t) : Prop := forall f, 0 <= m f <= 255.

(** Replays a port log from mode [m]: the mode the port ends in, or [None]
    when a byte is written while the port is in receive mode. *)
Fixpoint port_discipline (m : portMode_t) (l : list portEvent)
    : option portMode_t :=
  match l with
  | [] => Some m
  | EvSetMode m' :: l' => port_discipline m' l'
  | EvWrite _ :: l' =>
      match m with
      | MODE_TX => port_discipline MODE_TX l'
      | MODE_RX => None
      end
  end.

Section ExecutionVocabulary.

Context {hdr : hott_h}.

(** The first [n] bytes behind [(uint8_t * )&b] in state [s]. *)
Definition frame_bytes (s : state) (b : buffer) (n : nat) : list Z :=
  map (deref s b) (seq 0 n).

(** The refresh interval has not passed at any of the calls [es], counted
    from the refresh time [t]. *)
Definition no_refresh_due (t : Z) (es : list env) : Prop :=
  Forall (fun e =>
            to_uint32 (micros e - t) < HOTT_MESSAGE_PREPARATION_FREQUENCY_5_HZ)
         es.

(** The memory image of frame [b] in state [s], read off the frame
    itself, and the byte at offset [k] of it. *)
Definition frame_image (s : state) (b : buffer) : list Z :=
  match b with
  | GPSMessage => gps_image (hottGPSMessage s)
  | EAMMessage => eam_image (hottEAMMessage s)
  end.

Definition frame_byte (s : state) (b : buffer) (k : nat) : Z :=
  nth k (frame_image s b) 0.

(** What stands in frame [b] where the bytes of a send are due: walking
    through the calls [es] of the send, the first call that writes is set
    against offset [k] of the frame as that call sees it (after its own
    refresh), the next writing call against offset [k + 1], and so on. *)
Fixpoint send_reads (b : buffer) (k : nat) (es : list env) (s : state)
    : list Z :=
  match es with
  | [] => []
  | e :: es' =>
      if hottIsSending s
      then match written s (tick e s) with
           | [] => send_reads b k es' (tick e s)
           | _ :: _ =>
               frame_byte (refreshed e (arrived e s)) b k
                 :: send_reads b (S k) es' (tick e s)
           end
      else []
  end.

(** The two kinds of state between calls: at rest, with the port in receive
    mode, or in a send whose switch to transmit mode ends [log0]; either way
    no byte of the log so far was written in receive mode. *)
Definition at_rest (s : state) : Prop :=
  idle s /\ mode (hottPort s) = MODE_RX /\
  port_discipline MODE_RX (portLog (hottPort s)) = Some MODE_RX.

Definition in_send (s : state) : Prop :=
  exists b log0,
    phase b log0 s /\ hottIsSending s = true /\
    port_discipline MODE_RX log0 = Some MODE_TX.

Definition call_boundary (s : state) : Prop := at_rest s \/ in_send s.

End ExecutionVocabulary.

(** ** Port acquisition and release

    [configureHoTTTelemetryPort] and [freeHoTTTelemetryPort] over a port
    that carries, besides the line, its baud rate and whether the telemetry
    function is registered on it. *)

Definition HOTT_BAUDRATE : Z := 19200.
Definition HOTT_INITIAL_PORT_MODE : portMode_t := MODE_RX.

Record openPort : Type := mkOpenPort {
  line : serialPort_t;
  baudRate : Z;
  telemetryFunction : bool
}.

(** Modelled from the spec: set-baud. *)
Definition serialSetBaudRate (p : openPort) (baud : Z) : openPort :=
  mkOpenPort (line p) baud (telemetryFunction p).

(** [serialSetMode] on the line of an open port. *)
Definition openPortSetMode (p : openPort) (m : portMode_t) : openPort :=
  mkOpenPort (serialSetMode (line p) m) (baudRate p) (telemetryFunction p).

(** Modelled from the spec: the function tag is registered on the port. *)
Definition beginSerialPortFunction (p : openPort) : openPort :=
  mkOpenPort (line p) (baudRate p) true.

(** Modelled from the spec: "unregister the function tag". *)
Definition endSerialPortFunction (p : openPort) : openPort :=
  mkOpenPort (line p) (baudRate p) false.

(** Modelled from the spec: "open a dedicated port at the fixed protocol
    baud rate in receive mode", tagged for the function it is opened for. *)
Definition openSerialPort (baud : Z) (m : portMode_t) : openPort :=
  mkOpenPort (mkPort m [] []) baud true.

(** The statics of the port arbiter; [arbiterPort] is [hottPort], [None]
    being the null pointer. *)
Record arbiter : Type := mkArbiter {
  arbiterPort : option openPort;
  previousPortMode : portMode_t;
  previousBaudRate : Z
}.

(** [found] is what [findOpenSerialPort(FUNCTION_TELEMETRY)] returns. *)
Definition configureHoTTTelemetryPort (found : option openPort) (a : arbiter)
    : arbiter :=
  match found with
  | Some p =>
      let previousPortMode := mode (line p) in
      let previousBaudRate := baudRate p in
      let p := serialSetBaudRate p HOTT_BAUDRATE in
      let p := openPortSetMode p HOTT_INITIAL_PORT_MODE in
      let p := beginSerialPortFunction p in
      mkArbiter (Some p) previousPortMode previousBaudRate
  | None =>
      let p := openSerialPort HOTT_BAUDRATE HOTT_INITIAL_PORT_MODE in
      mkArbiter (Some p) (mode (line p)) (baudRate p)
  end.

(** Without a port the drivers would be called on a null pointer; the model
    stops there with [None]. *)
Definition freeHoTTTelemetryPort (a : arbiter) : option arbiter :=
  match arbiterPort a with
  | None => None
  | Some p =>
      let p := openPortSetMode p (previousPortMode a) in
      let p := serialSetBaudRate p (previousBaudRate a) in
      let p := endSerialPortFunction p in
      Some (mkArbiter (Some p) (previousPortMode a) (previousBaudRate a))
  end.

Definition getHoTTTelemetryProviderBaudRate : Z := HOTT_BAUDRATE.

(** * Properties *)

(** ** Machine integers *)

(** Linear arithmetic with division and remainder by constants. *)
Ltac div_lia := intros; Z.to_euclidean_division_equations; lia.

Lemma to_int8_id z : -128 <= z <= 127 -> to_int8 z = z.
Proof. unfold to_int8; div_lia. Qed.

Lemma to_int16_id z : -32768 <= z <= 32767 -> to_int16 z = z.
Proof. unfold to_int16; div_lia. Qed.

Lemma to_int32_id z : is_int32 z -> to_int32 z = z.
Proof. unfold to_int32, is_int32; div_lia. Qed.

Lemma to_uint8_id z : 0 <= z <= 255 -> to_uint8 z = z.
Proof. unfold to_uint8; div_lia. Qed.

Lemma to_uint16_id z : is_uint16 z -> to_uint16 z = z.
Proof. unfold to_uint16, is_uint16; div_lia. Qed.

Lemma to_uint8_range z : 0 <= to_uint8 z <= 255.
Proof. unfold to_uint8; div_lia. Qed.

Lemma shiftr_8 z : Z.shiftr z 8 = z / 256.
Proof. rewrite Z.shiftr_div_pow2 by lia. reflexivity. Qed.

Lemma land_255 z : Z.land z 255 = z mod 256.
Proof. change 255 with (Z.ones 8). rewrite Z.land_ones by lia. reflexivity. Qed.

Lemma lo8_uint16 z : to_uint8 (to_uint16 z) = lo8 z.
Proof. unfold to_uint8, to_uint16, lo8; div_lia. Qed.

Lemma hi8_uint16 z : to_uint8 (Z.shiftr (to_uint16 z) 8) = hi8 z.
Proof. rewrite shiftr_8. unfold to_uint8, to_uint16, hi8; div_lia. Qed.

Lemma lo8_hi8_uint16 z : is_uint16 z -> lo8 z + 256 * hi8 z = z.
Proof. unfold lo8, hi8, is_uint16; div_lia. Qed.

(** ** Frame members *)

Lemma GPS_set_same f v (m : GPS.t) : GPS.set f v m f = v.
Proof. unfold GPS.set. destruct (GPS.field_eq_dec f f); congruence. Qed.

Lemma GPS_set_other f g v (m : GPS.t) : g <> f -> GPS.set f v m g = m g.
Proof. unfold GPS.set. destruct (GPS.field_eq_dec g f); congruence. Qed.

Lemma EAM_set_same f v (m : EAM.t) : EAM.set f v m f = v.
Proof. unfold EAM.set. destruct (EAM.field_eq_dec f f); congruence. Qed.

Lemma EAM_set_other f g v (m : EAM.t) : g <> f -> EAM.set f v m g = m g.
Proof. unfold EAM.set. destruct (EAM.field_eq_dec g f); congruence. Qed.

(** Reads a member back through a chain of member assignments. *)
Ltac member :=
  repeat first
    [ rewrite GPS_set_same | rewrite GPS_set_other by discriminate
    | rewrite EAM_set_same | rewrite EAM_set_other by discriminate ].

(** ** Frame codec *)

Section CodecProperties.

Context {hdr : hott_h}.

(** Within the range of [int32_t] none of the typed intermediate values of
    the conversion wraps. *)
Lemma spec_deg_range v : is_int32 v -> -214 <= spec_deg v <= 214.
Proof.
  unfold spec_deg, is_int32; div_lia.
Qed.

Lemma spec_sec0_range v : is_int32 v -> -59999994 <= spec_sec0 v <= 59999994.
Proof.
  unfold spec_sec0, spec_deg, is_int32; div_lia.
Qed.

Lemma spec_min_range v : is_int32 v -> -59 <= spec_min v <= 59.
Proof.
  intros H. apply spec_sec0_range in H. unfold spec_min. div_lia.
Qed.

Lemma spec_sec_range v : -9999 <= spec_sec v <= 9999.
Proof. unfold spec_sec; div_lia. Qed.

Lemma spec_nonneg v :
  0 <= v -> 0 <= spec_deg v /\ 0 <= spec_min v /\ 0 <= spec_sec v.
Proof.
  unfold spec_sec, spec_min, spec_sec0, spec_deg; div_lia.
Qed.

Lemma coordinate_typed v :
  is_int32 v ->
  let deg := to_int16 (Z.quot v 10000000) in
  let sec := to_int32 ((v - deg * 10000000) * 6) in
  let min := to_int8 (Z.quot sec 1000000) in
  deg = spec_deg v /\ sec = spec_sec0 v /\ min = spec_min v /\
  to_int32 (Z.quot (Z.rem sec 1000000) 100) = spec_sec v.
Proof.
  intros H; cbv zeta.
  assert (Hd : to_int16 (Z.quot v 10000000) = spec_deg v).
  { apply to_int16_id. fold (spec_deg v). pose proof (spec_deg_range v H). lia. }
  rewrite Hd.
  assert (Hs : to_int32 ((v - spec_deg v * 10000000) * 6) = spec_sec0 v).
  { apply to_int32_id. fold (spec_sec0 v).
    pose proof (spec_sec0_range v H). unfold is_int32. lia. }
  rewrite Hs.
  assert (Hm : to_int8 (Z.quot (spec_sec0 v) 1000000) = spec_min v).
  { apply to_int8_id. fold (spec_min v). pose proof (spec_min_range v H). lia. }
  rewrite Hm. repeat split.
  apply to_int32_id. fold (spec_sec v).
  pose proof (spec_sec_range v). unfold is_int32. lia.
Qed.

Lemma hi8_int z : to_uint8 (Z.shiftr z 8) = hi8 z.
Proof. rewrite shiftr_8. reflexivity. Qed.

Lemma packed_coordinate v :
  is_int32 v ->
  let deg := to_int16 (Z.quot v 10000000) in
  let sec0 := to_int32 ((v - deg * 10000000) * 6) in
  let min := to_int8 (Z.quot sec0 1000000) in
  let sec := to_int32 (Z.quot (Z.rem sec0 1000000) 100) in
  let degMin := to_uint16 (deg * 100 + min) in
  packs_coordinate v (b2z (v <? 0))
    (to_uint8 degMin) (to_uint8 (Z.shiftr degMin 8))
    (to_uint8 sec) (to_uint8 (Z.shiftr sec 8)).
Proof.
  intros H; cbv zeta.
  destruct (coordinate_typed v H) as (Hd & Hs & Hm & Hc).
  cbv zeta in Hd, Hs, Hm, Hc.
  rewrite Hs in *. rewrite Hd in *. rewrite Hm, Hc.
  fold (spec_degMin v).
  rewrite lo8_uint16, hi8_uint16, hi8_int.
  unfold packs_coordinate. repeat split.
  - apply lo8_hi8_uint16.
    destruct (spec_nonneg v H0) as (? & ? & ?).
    pose proof (spec_deg_range v H). pose proof (spec_min_range v H).
    unfold spec_degMin, is_uint16. lia.
  - unfold to_uint8. fold (lo8 (spec_sec v)). apply lo8_hi8_uint16.
    destruct (spec_nonneg v H0) as (? & ? & ?).
    pose proof (spec_sec_range v). unfold is_uint16. lia.
Qed.

(** C5 (as amended): for every [int32_t] latitude and longitude,
    [addGPSCoordinates] stores, per coordinate [v], the hemisphere flag
    [v < 0] and the low and high bytes of the low 16 bits of
    [degMin = deg*100 + min] and of [sec], all computed by the stated formula
    with C's truncating division and remainder; when [v] is not negative the
    two byte pairs are exactly [degMin] and [sec]. *)
Theorem addGPSCoordinates_packs (m : HOTT_GPS_MSG_t) (latitude longitude : Z) :
  is_int32 latitude -> is_int32 longitude ->
  let m' := addGPSCoordinates m latitude longitude in
  packs_coordinate latitude (m' GPS.pos_NS)
    (m' GPS.pos_NS_dm_L) (m' GPS.pos_NS_dm_H)
    (m' GPS.pos_NS_sec_L) (m' GPS.pos_NS_sec_H) /\
  packs_coordinate longitude (m' GPS.pos_EW)
    (m' GPS.pos_EW_dm_L) (m' GPS.pos_EW_dm_H)
    (m' GPS.pos_EW_sec_L) (m' GPS.pos_EW_sec_H).
Proof.
  intros Hlat Hlon m'. subst m'. unfold addGPSCoordinates. cbv zeta.
  member.
  split; [apply (packed_coordinate latitude Hlat)
         | apply (packed_coordinate longitude Hlon)].
Qed.

(** C9: with a fix, the ground speed in km/h is [(GPS_speed / 100) * 36],
    stored low byte first; a speed of 250 (0.1 m/s) is stored as the bytes
    72, 0. *)
Theorem hottPrepareGPSResponse_speed (e : env) (m : HOTT_GPS_MSG_t) :
  f_GPS_FIX e = true -> is_uint16 (GPS_speed e) ->
  let m' := hottPrepareGPSResponse e m in
  let kmh := GPS_speed e / 100 * 36 in
  m' GPS.gps_speed_L = lo8 kmh /\ m' GPS.gps_speed_H = hi8 kmh /\
  m' GPS.gps_speed_L + 256 * m' GPS.gps_speed_H = kmh /\
  (GPS_speed e = 250 -> m' GPS.gps_speed_L = 72 /\ m' GPS.gps_speed_H = 0).
Proof.
  intros Hfix Hspeed m' kmh. subst m'. unfold hottPrepareGPSResponse.
  rewrite Hfix. cbn [negb]. cbv zeta. member.
  rewrite land_255. unfold is_uint16 in Hspeed.
  rewrite Z.quot_div_nonneg by lia. fold kmh.
  assert (Hk : is_uint16 kmh) by (unfold is_uint16; subst kmh; div_lia).
  rewrite (to_uint16_id kmh Hk). fold (lo8 kmh).
  rewrite hi8_int.
  assert (Hlo : to_uint8 (lo8 kmh) = lo8 kmh)
    by (unfold to_uint8, lo8; div_lia).
  rewrite Hlo. repeat split.
  - apply lo8_hi8_uint16, Hk.
  - subst kmh. rewrite H. reflexivity.
  - subst kmh. rewrite H. reflexivity.
Qed.

(** C10: without a fix, a refresh of the GPS frame writes the satellite
    count and the fix character '-' and leaves every other member of the
    frame (coordinates, speed, home distance, altitude and home direction
    among them) as the previous refresh left it. *)
Theorem hottPrepareGPSResponse_no_fix (e : env) (m : HOTT_GPS_MSG_t) :
  f_GPS_FIX e = false ->
  let m' := hottPrepareGPSResponse e m in
  m' GPS.gps_satelites = to_uint8 (GPS_numSat e) /\
  m' GPS.gps_fix_char = GPS_FIX_CHAR_NONE /\
  forall f : GPS.field,
    f <> GPS.gps_satelites -> f <> GPS.gps_fix_char -> m' f = m f.
Proof.
  intros Hfix m'. subst m'. unfold hottPrepareGPSResponse.
  rewrite Hfix. cbn [negb]. cbv zeta. member. repeat split.
  intros f Hsat Hchar.
  rewrite GPS_set_other by exact Hchar.
  rewrite GPS_set_other by exact Hsat. reflexivity.
Qed.

End CodecProperties.

(** ** The serial port *)

Lemma flushLoop_empties n p :
  (length (rxBuffer p) <= n)%nat ->
  flushLoop n p = mkPort (mode p) [] (portLog p).
Proof.
  revert p; induction n as [|n IH]; intros [m rx lg] H; cbn in *.
  - destruct rx; cbn in *; [reflexivity | lia].
  - unfold serialTotalBytesWaiting, serialRead; cbn.
    destruct rx as [|c rx]; cbn in *; [reflexivity|].
    rewrite IH by (cbn; lia). reflexivity.
Qed.

Lemma flushHottRxBuffer_port s :
  hottPort (flushHottRxBuffer s)
  = mkPort (mode (hottPort s)) [] (portLog (hottPort s)).
Proof. unfold flushHottRxBuffer; cbn. apply flushLoop_empties; lia. Qed.

Lemma writes_app l1 l2 : writes (l1 ++ l2) = writes l1 ++ writes l2.
Proof.
  induction l1 as [|[m|c] l1 IH]; cbn; [reflexivity | exact IH |].
  rewrite IH; reflexivity.
Qed.

Lemma writes_map_EvWrite P : writes (map EvWrite P) = P.
Proof. induction P as [|c P IH]; cbn; [reflexivity | now rewrite IH]. Qed.

Lemma skipn_length_app {A} (l1 l2 : list A) : skipn (length l1) (l1 ++ l2) = l2.
Proof. induction l1; cbn; auto. Qed.

Lemma checksum_snoc P c : to_uint8 (checksum P + c) = checksum (P ++ [c]).
Proof.
  unfold checksum, to_uint8.
  assert (H : sum_bytes (P ++ [c]) = sum_bytes P + c).
  { unfold sum_bytes.
    induction P as [|x P IH]; cbn [app fold_right]; [lia | rewrite IH; lia]. }
  rewrite H. rewrite Z.add_mod_idemp_l by lia. reflexivity.
Qed.

(** ** Frame transmitter and dispatcher *)

Section SendProperties.

Context {hdr : hott_h}.

(** *** What the first part of a call leaves alone *)

Lemma refreshed_arrived_frame e s :
  let s1 := refreshed e (arrived e s) in
  hottIsSending s1 = hottIsSending s /\ hottMsg s1 = hottMsg s /\
  hottMsgRemainingBytesToSendCount s1 = hottMsgRemainingBytesToSendCount s /\
  hottMsgCrc s1 = hottMsgCrc s /\
  mode (hottPort s1) = mode (hottPort s) /\
  portLog (hottPort s1) = portLog (hottPort s) /\
  rxBuffer (hottPort s1) = rxBuffer (hottPort s) ++ wire_in e /\
  serialTimer s1 = serialTimer s /\
  lookingForRequest s1 = lookingForRequest s /\
  lastHoTTRequestCheckAt s1 = lastHoTTRequestCheckAt s.
Proof.
  unfold refreshed, arrived.
  destruct (shouldPrepareHoTTMessages _ _); cbn; repeat split; reflexivity.
Qed.

Lemma tick_sending e s :
  hottIsSending s = true ->
  tick e s =
  let s1 := refreshed e (arrived e s) in
  match hottMsg s1 with
  | None => s1
  | Some _ =>
      if to_uint32 (micros e - serialTimer s1) <? HOTT_TX_DELAY_US
      then s1
      else set_serialTimer (micros e) (hottSendTelemetryData s1)
  end.
Proof.
  intros Hs. unfold tick, handleHoTTTelemetry. cbv zeta.
  fold (arrived e s). fold (refreshed e (arrived e s)).
  destruct (refreshed_arrived_frame e s) as (H1 & _).
  cbv zeta in H1. unfold shouldCheckForHoTTRequest.
  rewrite H1, Hs. cbv iota. rewrite H1, Hs. reflexivity.
Qed.

Lemma serialRead_port p :
  mode (snd (serialRead p)) = mode p /\
  portLog (snd (serialRead p)) = portLog p /\
  rxBuffer (snd (serialRead p)) = tl (rxBuffer p).
Proof.
  unfold serialRead. destruct p as [m rx lg]; cbn.
  destruct rx; cbn; auto.
Qed.

Ltac split_ifs :=
  repeat match goal with
         | |- context [if ?c then _ else _] => destruct c eqn:?
         end.

Lemma hottSendResponse_frame b n s :
  let s' := hottSendResponse b n s in
  hottIsSending s' = hottIsSending s /\ hottMsgCrc s' = hottMsgCrc s /\
  hottPort s' = hottPort s /\ serialTimer s' = serialTimer s /\
  hottGPSMessage s' = hottGPSMessage s /\
  hottEAMMessage s' = hottEAMMessage s /\
  lastMessagesPreparedAt s' = lastMessagesPreparedAt s /\
  lookingForRequest s' = lookingForRequest s /\
  lastHoTTRequestCheckAt s' = lastHoTTRequestCheckAt s.
Proof.
  unfold hottSendResponse.
  destruct (hottIsSending s) eqn:E; cbn; rewrite ?E; repeat split.
Qed.

Lemma processBinaryModeRequest_frame e a s :
  let s' := processBinaryModeRequest e a s in
  hottIsSending s' = hottIsSending s /\ hottMsgCrc s' = hottMsgCrc s /\
  hottPort s' = hottPort s /\ serialTimer s' = serialTimer s /\
  hottGPSMessage s' = hottGPSMessage s /\
  hottEAMMessage s' = hottEAMMessage s /\
  lastMessagesPreparedAt s' = lastMessagesPreparedAt s /\
  lookingForRequest s' = lookingForRequest s /\
  lastHoTTRequestCheckAt s' = lastHoTTRequestCheckAt s.
Proof.
  unfold processBinaryModeRequest, hottSendGPSResponse, hottSendEAMResponse.
  split_ifs; try apply hottSendResponse_frame; cbn; repeat split.
Qed.

(** The detector touches neither the transmitter's variables nor the
    frames, and at the port it only takes bytes out of the receive queue. *)
Lemma hottCheckSerialData_frame e now s :
  let s' := hottCheckSerialData e now s in
  hottIsSending s' = hottIsSending s /\ hottMsgCrc s' = hottMsgCrc s /\
  mode (hottPort s') = mode (hottPort s) /\
  portLog (hottPort s') = portLog (hottPort s) /\
  serialTimer s' = serialTimer s /\
  hottGPSMessage s' = hottGPSMessage s /\
  hottEAMMessage s' = hottEAMMessage s /\
  lastMessagesPreparedAt s' = lastMessagesPreparedAt s.
Proof.
  unfold hottCheckSerialData. cbv zeta.
  destruct (_ <=? 1); [repeat split|].
  destruct (negb _).
  { pose proof (flushHottRxBuffer_port s) as F.
    unfold flushHottRxBuffer in *. cbn in *. rewrite F. cbn. repeat split. }
  destruct (lookingForRequest s); [cbn; repeat split|].
  destruct (negb _); [repeat split|].
  cbn [hottPort set_lookingForRequest].
  destruct (serialRead (hottPort s)) as [r p1] eqn:E1.
  destruct (serialRead p1) as [a p2] eqn:E2.
  pose proof (serialRead_port (hottPort s)) as (M1 & L1 & _).
  pose proof (serialRead_port p1) as (M2 & L2 & _).
  rewrite E1 in M1, L1. rewrite E2 in M2, L2. cbn in M1, L1, M2, L2.
  destruct (r =? _).
  - destruct (processBinaryModeRequest_frame e a
                (set_hottPort p2 (set_lookingForRequest true s)))
      as (F1 & F2 & F3 & F4 & F5 & F6 & F7 & _).
    cbv zeta in *. rewrite F1, F2, F3, F4, F5, F6, F7. cbn.
    rewrite M2, L2, M1, L1. repeat split.
  - cbn. rewrite M2, L2, M1, L1. repeat split.
Qed.

Lemma tick_not_sending e s :
  hottIsSending s = false ->
  tick e s =
  let s2 := hottCheckSerialData e (micros e) (refreshed e (arrived e s)) in
  match hottMsg s2 with
  | None => s2
  | Some _ => set_serialTimer (micros e) (hottSendTelemetryData s2)
  end.
Proof.
  intros Hs. unfold tick, handleHoTTTelemetry. cbv zeta.
  fold (arrived e s). fold (refreshed e (arrived e s)).
  destruct (refreshed_arrived_frame e s) as (H1 & _).
  cbv zeta in H1. unfold shouldCheckForHoTTRequest.
  rewrite H1, Hs. cbv iota.
  destruct (hottMsg _); [|reflexivity].
  destruct (hottCheckSerialData_frame e (micros e) (refreshed e (arrived e s)))
    as (H2 & _).
  cbv zeta in H2. rewrite H2, H1, Hs. reflexivity.
Qed.

(** *** The four branches of [hottSendTelemetryData] *)

Lemma hottSendTelemetryData_start s :
  hottIsSending s = false ->
  hottSendTelemetryData s
  = set_hottMsgCrc 0
      (set_hottPort (serialSetMode (hottPort s) MODE_TX)
         (set_hottIsSending true s)).
Proof. intros H. unfold hottSendTelemetryData. rewrite H. reflexivity. Qed.

Lemma hottSendTelemetryData_complete s :
  hottIsSending s = true ->
  hottMsgRemainingBytesToSendCount s = 0 ->
  hottSendTelemetryData s
  = flushHottRxBuffer
      (set_hottPort (serialSetMode (hottPort s) MODE_RX)
         (set_hottIsSending false (set_hottMsg None s))).
Proof.
  intros H H0. unfold hottSendTelemetryData. rewrite H, H0. reflexivity.
Qed.

Lemma hottSendTelemetryData_crc s :
  hottIsSending s = true ->
  hottMsgRemainingBytesToSendCount s <> 0 ->
  to_uint8 (hottMsgRemainingBytesToSendCount s - 1) = 0 ->
  hottSendTelemetryData s
  = hottSerialWrite (hottMsgCrc s)
      (set_hottMsgCrc (to_uint8 (hottMsgCrc s + 1))
         (set_hottMsgRemainingBytesToSendCount 0 s)).
Proof.
  intros H H0 H1. unfold hottSendTelemetryData. rewrite H. cbn [negb].
  apply Z.eqb_neq in H0. rewrite H0. cbv zeta.
  cbn [hottMsgRemainingBytesToSendCount set_hottMsgRemainingBytesToSendCount].
  rewrite H1. reflexivity.
Qed.

Lemma hottSendTelemetryData_byte s b i :
  hottIsSending s = true ->
  hottMsgRemainingBytesToSendCount s <> 0 ->
  to_uint8 (hottMsgRemainingBytesToSendCount s - 1) <> 0 ->
  hottMsg s = Some (b, i) ->
  hottSendTelemetryData s
  = hottSerialWrite (deref s b i)
      (set_hottMsg (Some (b, S i))
         (set_hottMsgCrc (to_uint8 (hottMsgCrc s + deref s b i))
            (set_hottMsgRemainingBytesToSendCount
               (to_uint8 (hottMsgRemainingBytesToSendCount s - 1)) s))).
Proof.
  intros H H0 H1 H2. unfold hottSendTelemetryData. rewrite H. cbn [negb].
  apply Z.eqb_neq in H0. rewrite H0. cbv zeta.
  cbn [hottMsgRemainingBytesToSendCount set_hottMsgRemainingBytesToSendCount
       hottMsg].
  apply Z.eqb_neq in H1. rewrite H1, H2. reflexivity.
Qed.

(** *** One call during a send *)

Lemma phase_step b log0 e s :
  sizes_fit -> phase b log0 s -> hottIsSending s = true ->
  phase b log0 (tick e s).
Proof.
  intros Hfit Hph Hs. rewrite tick_sending by exact Hs. cbv zeta.
  destruct (refreshed_arrived_frame e s)
    as (R1 & R2 & R3 & R4 & R5 & R6 & R7 & R8 & _).
  cbv zeta in *. set (s1 := refreshed e (arrived e s)) in *.
  specialize (Hfit b).
  destruct Hph as [P _ Hm Hle Hrem Hcrc Hmode Hlog
                  | P _ Hm Hlen Hrem Hmode Hlog
                  | P Hn _ _ _ _ _]; [| |congruence].
  - rewrite R2, Hm.
    destruct (_ <? _).
    { apply (Payload b log0 s1 P); congruence. }
    assert (Hrem1 : hottMsgRemainingBytesToSendCount s1 <> 0) by lia.
    destruct (Z.eq_dec (Z.of_nat (length P)) (sizeof_buffer b)) as [Hk|Hk].
    + rewrite hottSendTelemetryData_crc;
        [| congruence | exact Hrem1 | rewrite R3, Hrem; unfold to_uint8; div_lia].
      apply (Trailer b log0 _ P); cbn; try congruence.
      rewrite R6, Hlog, R4, Hcrc, map_app, app_assoc. reflexivity.
    + assert (Hd : to_uint8 (hottMsgRemainingBytesToSendCount s1 - 1)
                   = sizeof_buffer b - Z.of_nat (length P))
        by (rewrite R3, Hrem; unfold to_uint8; div_lia).
      rewrite (hottSendTelemetryData_byte s1 b (length P));
        [| congruence | exact Hrem1 | lia | congruence].
      apply (Payload b log0 _ (P ++ [deref s1 b (length P)])); cbn.
      * congruence.
      * rewrite length_app. cbn. do 2 f_equal. lia.
      * rewrite length_app. cbn. lia.
      * rewrite Hd, length_app. cbn. lia.
      * rewrite R4, Hcrc. apply checksum_snoc.
      * congruence.
      * rewrite R6, Hlog, map_app, app_assoc. reflexivity.
  - rewrite R2, Hm.
    destruct (_ <? _).
    { apply (Trailer b log0 s1 P); congruence. }
    rewrite hottSendTelemetryData_complete by congruence.
    apply (Done b log0 _ P); cbn; try congruence.
    + rewrite flushLoop_empties by (cbn; lia). reflexivity.
    + rewrite flushLoop_empties by (cbn; lia). reflexivity.
    + rewrite flushLoop_empties by (cbn; lia). cbn.
      rewrite R6, Hlog, app_assoc. reflexivity.
Qed.

(** What a call during a send does to the clock of the last transmitter
    action, to the port log and to the remaining-byte counter: nothing
    before the inter-byte delay is over; after it, one byte is written, or
    the send completes. *)
Lemma sending_call b log0 e s :
  sizes_fit -> phase b log0 s -> hottIsSending s = true ->
  let s' := tick e s in
  (to_uint32 (micros e - serialTimer s) < HOTT_TX_DELAY_US /\
   serialTimer s' = serialTimer s /\
   portLog (hottPort s') = portLog (hottPort s) /\
   hottIsSending s' = true /\
   hottMsgRemainingBytesToSendCount s' = hottMsgRemainingBytesToSendCount s)
  \/
  (HOTT_TX_DELAY_US <= to_uint32 (micros e - serialTimer s) /\
   serialTimer s' = micros e /\
   ((exists c,
       portLog (hottPort s') = portLog (hottPort s) ++ [EvWrite c] /\
       hottIsSending s' = true /\
       hottMsgRemainingBytesToSendCount s'
         = hottMsgRemainingBytesToSendCount s - 1)
    \/
    (portLog (hottPort s') = portLog (hottPort s) ++ [EvSetMode MODE_RX] /\
     hottIsSending s' = false /\
     hottMsgRemainingBytesToSendCount s = 0))).
Proof.
  intros Hfit Hph Hs. rewrite tick_sending by exact Hs. cbv zeta.
  destruct (refreshed_arrived_frame e s)
    as (R1 & R2 & R3 & R4 & R5 & R6 & R7 & R8 & _).
  cbv zeta in *. set (s1 := refreshed e (arrived e s)) in *.
  specialize (Hfit b).
  assert (Hm : exists i, hottMsg s = Some (b, i)).
  { destruct Hph; try congruence; eauto. }
  destruct Hm as [i Hm]. rewrite R2, Hm, R8.
  destruct (_ <? _) eqn:Hdelay.
  { left. apply Z.ltb_lt in Hdelay. repeat split; try congruence. }
  right. apply Z.ltb_ge in Hdelay. split; [exact Hdelay|].
  split; [reflexivity|].
  destruct Hph as [P _ Hm' Hle Hrem Hcrc Hmode Hlog
                  | P _ Hm' Hlen Hrem Hmode Hlog
                  | P Hn _ _ _ _ _]; [| |congruence].
  - left.
    assert (Hrem1 : hottMsgRemainingBytesToSendCount s1 <> 0) by lia.
    assert (Hd : to_uint8 (hottMsgRemainingBytesToSendCount s1 - 1)
                 = hottMsgRemainingBytesToSendCount s - 1)
      by (rewrite R3, Hrem; unfold to_uint8; div_lia).
    destruct (Z.eq_dec (Z.of_nat (length P)) (sizeof_buffer b)) as [Hk|Hk].
    + rewrite hottSendTelemetryData_crc;
        [| congruence | exact Hrem1 | rewrite Hd; lia].
      exists (hottMsgCrc s1). cbn. rewrite R6, R1. repeat split; [exact Hs | lia].
    + rewrite (hottSendTelemetryData_byte s1 b i);
        [| congruence | exact Hrem1 | lia | congruence].
      exists (deref s1 b i). cbn. rewrite R6, R1, Hd. repeat split. exact Hs.
  - right. rewrite hottSendTelemetryData_complete by congruence. cbn.
    rewrite flushLoop_empties by (cbn; lia). cbn. rewrite R6.
    repeat split. exact Hrem.
Qed.

(** Which byte a call writes while the payload is being sent: the byte
    under the cursor in the frame as this very call has refreshed it. *)
Lemma payload_byte_written e s b i :
  hottIsSending s = true -> hottMsg s = Some (b, i) ->
  1 < hottMsgRemainingBytesToSendCount s <= 255 ->
  HOTT_TX_DELAY_US <= to_uint32 (micros e - serialTimer s) ->
  portLog (hottPort (tick e s))
  = portLog (hottPort s) ++ [EvWrite (deref (refreshed e (arrived e s)) b i)] /\
  hottMsg (tick e s) = Some (b, S i).
Proof.
  intros Hs Hm Hrem Hd. rewrite tick_sending by exact Hs. cbv zeta.
  destruct (refreshed_arrived_frame e s)
    as (R1 & R2 & R3 & R4 & R5 & R6 & R7 & R8 & _).
  cbv zeta in *. set (s1 := refreshed e (arrived e s)) in *.
  rewrite R2, Hm, R8. apply Z.ltb_ge in Hd. rewrite Hd.
  rewrite (hottSendTelemetryData_byte s1 b i);
    [| congruence | lia | rewrite R3; unfold to_uint8; div_lia | congruence].
  cbn. rewrite R6. auto.
Qed.

Lemma phase_run_send b log0 es s :
  sizes_fit -> phase b log0 s -> phase b log0 (run_send es s).
Proof.
  intros Hfit. revert s. induction es as [|e es IH]; intros s Hph; cbn.
  - exact Hph.
  - destruct (hottIsSending s) eqn:Hs; [|exact Hph].
    apply IH, phase_step; assumption.
Qed.

(** *** The call that starts a send *)

Lemma hottSendResponse_cursor b n s :
  hottIsSending s = false ->
  hottMsg (hottSendResponse b n s) = Some (b, 0%nat) /\
  hottMsgRemainingBytesToSendCount (hottSendResponse b n s)
    = to_uint8 (n + HOTT_CRC_SIZE).
Proof. intros H. unfold hottSendResponse. rewrite H. cbn. auto. Qed.

Lemma processBinaryModeRequest_cursor e a s :
  hottIsSending s = false ->
  let s' := processBinaryModeRequest e a s in
  (hottMsg s' = hottMsg s /\
   hottMsgRemainingBytesToSendCount s' = hottMsgRemainingBytesToSendCount s)
  \/
  (exists b, hottMsg s' = Some (b, 0%nat) /\
     hottMsgRemainingBytesToSendCount s'
       = to_uint8 (sizeof_buffer b + HOTT_CRC_SIZE)).
Proof.
  intros H. unfold processBinaryModeRequest, hottSendGPSResponse,
    hottSendEAMResponse. cbv zeta.
  destruct (a =? 138).
  - destruct (sensors e SENSOR_GPS); [|left; auto].
    right. exists GPSMessage. apply hottSendResponse_cursor, H.
  - destruct (a =? 142); [|left; auto].
    right. exists EAMMessage. apply hottSendResponse_cursor, H.
Qed.

Lemma hottCheckSerialData_cursor e now s :
  hottIsSending s = false ->
  let s' := hottCheckSerialData e now s in
  (hottMsg s' = hottMsg s /\
   hottMsgRemainingBytesToSendCount s' = hottMsgRemainingBytesToSendCount s)
  \/
  (exists b, hottMsg s' = Some (b, 0%nat) /\
     hottMsgRemainingBytesToSendCount s'
       = to_uint8 (sizeof_buffer b + HOTT_CRC_SIZE)).
Proof.
  intros H. unfold hottCheckSerialData. cbv zeta.
  destruct (_ <=? 1); [left; auto|].
  destruct (negb _); [left; auto|].
  destruct (lookingForRequest s); [left; auto|].
  destruct (negb _); [left; auto|].
  cbn [hottPort set_lookingForRequest].
  destruct (serialRead (hottPort s)) as [r p1].
  destruct (serialRead p1) as [a p2].
  destruct (r =? _); [|left; auto].
  apply (processBinaryModeRequest_cursor e a
           (set_hottPort p2 (set_lookingForRequest true s))).
  exact H.
Qed.

(** A call made while nothing is pending either leaves the transmitter
    idle, or starts a send: the port is switched to transmit mode, the
    checksum accumulator is zeroed and the cursor is at the first byte. *)
Lemma idle_call e s :
  sizes_fit -> idle s ->
  let s' := tick e s in
  (idle s' /\ portLog (hottPort s') = portLog (hottPort s))
  \/
  (exists b,
     phase b (portLog (hottPort s) ++ [EvSetMode MODE_TX]) s' /\
     hottIsSending s' = true /\ hottMsg s' = Some (b, 0%nat) /\
     hottMsgCrc s' = 0 /\ serialTimer s' = micros e /\
     portLog (hottPort s') = portLog (hottPort s) ++ [EvSetMode MODE_TX]).
Proof.
  intros Hfit [Hs Hm]. rewrite tick_not_sending by exact Hs. cbv zeta.
  destruct (refreshed_arrived_frame e s)
    as (R1 & R2 & R3 & R4 & R5 & R6 & _).
  cbv zeta in *. set (s1 := refreshed e (arrived e s)) in *.
  destruct (hottCheckSerialData_frame e (micros e) s1)
    as (F1 & F2 & F3 & F4 & _).
  assert (Hs1 : hottIsSending s1 = false) by congruence.
  destruct (hottCheckSerialData_cursor e (micros e) s1 Hs1) as [[C1 C2]|[b [C1 C2]]];
    cbv zeta in *; set (s2 := hottCheckSerialData e (micros e) s1) in *.
  - left. rewrite C1, R2, Hm. unfold idle. repeat split; congruence.
  - right. exists b. rewrite C1.
    rewrite hottSendTelemetryData_start by congruence.
    specialize (Hfit b).
    split; [|cbn; repeat split; congruence].
    apply (Payload b _ _ []); cbn; try congruence.
    + lia.
    + rewrite C2. unfold to_uint8, HOTT_CRC_SIZE. div_lia.
    + rewrite app_nil_r. congruence.
Qed.

(** *** The calls of one send *)

Lemma run_send_not_sending es s :
  hottIsSending s = false -> run_send es s = s.
Proof. intros H. destruct es; cbn; [reflexivity | now rewrite H]. Qed.

Lemma send_trace_not_sending es s :
  hottIsSending s = false -> send_trace es s = [].
Proof. intros H. destruct es; cbn; [reflexivity | now rewrite H]. Qed.

Lemma written_same s s' :
  portLog (hottPort s') = portLog (hottPort s) -> written s s' = [].
Proof. intros H. unfold written. rewrite H, skipn_all. reflexivity. Qed.

Lemma written_event s s' ev :
  portLog (hottPort s') = portLog (hottPort s) ++ [ev] ->
  written s s' = writes [ev].
Proof. intros H. unfold written. rewrite H, skipn_length_app. reflexivity. Qed.

(** Every call of a send writes at most one byte, a call that writes comes
    at least the inter-byte delay after the previous transmitter action, and
    the port log grows by the bytes of the trace, followed by the switch to
    receive mode once the send is over. *)
Lemma send_trace_paced b log0 es s :
  sizes_fit -> phase b log0 s ->
  Forall (fun c => (length (snd c) <= 1)%nat) (send_trace es s) /\
  spaced (serialTimer s) (writing_times (send_trace es s)) /\
  portLog (hottPort (run_send es s))
  = portLog (hottPort s) ++ map EvWrite (trace_bytes (send_trace es s))
      ++ (if hottIsSending s && negb (hottIsSending (run_send es s))
          then [EvSetMode MODE_RX] else []).
Proof.
  intros Hfit. revert s.
  induction es as [|e es IH]; intros s Hph.
  - cbn. rewrite andb_negb_r, app_nil_r. auto.
  - cbn [send_trace run_send].
    destruct (hottIsSending s) eqn:Hs.
    2:{ cbn. rewrite app_nil_r. auto. }
    pose proof (phase_step b log0 e s Hfit Hph Hs) as Hph'.
    destruct (IH _ Hph') as (IH1 & IH2 & IH3). clear IH.
    destruct (sending_call b log0 e s Hfit Hph Hs)
      as [(Hd & Ht & Hl & Hs' & _) | (Hd & Ht & [(c & Hl & Hs' & _) | (Hl & Hs' & _)])];
      cbv zeta in *.
    + rewrite (written_same _ _ Hl).
      split; [constructor; [cbn; lia | exact IH1]|].
      unfold writing_times, trace_bytes in *. cbn.
      rewrite Ht in IH2. split; [exact IH2|].
      rewrite IH3, Hl, Hs'. reflexivity.
    + rewrite (written_event _ _ _ Hl).
      split; [constructor; [cbn; lia | exact IH1]|].
      unfold writing_times, trace_bytes in *. cbn.
      rewrite Ht in IH2. split; [split; [exact Hd | exact IH2]|].
      rewrite IH3, Hl, Hs', <- app_assoc. reflexivity.
    + rewrite (written_event _ _ _ Hl).
      rewrite (send_trace_not_sending es _ Hs') in *.
      rewrite (run_send_not_sending es _ Hs') in *.
      split; [constructor; [cbn; lia | constructor]|].
      unfold writing_times, trace_bytes. cbn.
      rewrite Hs', Hl. auto.
Qed.

(** Calls that are each at least the inter-byte delay apart finish the
    send: one call per remaining byte and one more to complete. *)
Lemma send_completes b log0 es s :
  sizes_fit -> phase b log0 s ->
  spaced (serialTimer s) (map micros es) ->
  (if hottIsSending s then hottMsgRemainingBytesToSendCount s + 1 else 0)
    <= Z.of_nat (length es) ->
  hottIsSending (run_send es s) = false.
Proof.
  intros Hfit. revert s.
  induction es as [|e es IH]; intros s Hph Hsp Hlen.
  - cbn in *. destruct (hottIsSending s) eqn:Hs; [|reflexivity].
    specialize (Hfit b). destruct Hph; try congruence; lia.
  - cbn [run_send]. destruct (hottIsSending s) eqn:Hs; [|exact Hs].
    destruct Hsp as [Hd Hsp].
    pose proof (phase_step b log0 e s Hfit Hph Hs) as Hph'.
    destruct (sending_call b log0 e s Hfit Hph Hs)
      as [(Hd' & _) | (_ & Ht & [(c & _ & Hs' & Hr) | (_ & Hs' & _)])];
      cbv zeta in *.
    + lia.
    + apply IH; [exact Hph' | rewrite Ht; exact Hsp |].
      rewrite Hs', Hr. cbn [length] in Hlen. lia.
    + rewrite run_send_not_sending; exact Hs'.
Qed.

(** What has been written at any point of a send: at most the frame and
    one more byte, and once that many bytes are out, the last one is the
    checksum of the others. *)
Lemma phase_written b log0 s :
  phase b log0 s ->
  exists W tail,
    portLog (hottPort s) = log0 ++ map EvWrite W ++ tail /\
    (tail = [] \/ tail = [EvSetMode MODE_RX]) /\
    Z.of_nat (length W) <= sizeof_buffer b + 1 /\
    (Z.of_nat (length W) = sizeof_buffer b + 1 ->
     exists P, W = P ++ [checksum P] /\ Z.of_nat (length P) = sizeof_buffer b) /\
    (hottIsSending s = false ->
     Z.of_nat (length W) = sizeof_buffer b + 1 /\
     tail = [EvSetMode MODE_RX] /\ hottMsg s = None /\
     mode (hottPort s) = MODE_RX /\ rxBuffer (hottPort s) = []).
Proof.
  intros [P Hs Hm Hle Hrem Hcrc Hmode Hlog
         | P Hs Hm Hlen Hrem Hmode Hlog
         | P Hs Hm Hlen Hmode Hrx Hlog].
  - exists P, []. rewrite app_nil_r. repeat split; auto; try lia; congruence.
  - exists (P ++ [checksum P]), []. rewrite app_nil_r, length_app. cbn.
    repeat split; auto; try lia; try congruence.
    intros _. exists P. auto.
  - exists (P ++ [checksum P]), [EvSetMode MODE_RX]. rewrite length_app. cbn.
    repeat split; auto; try lia.
    intros _. exists P. auto.
Qed.

Lemma same_writes W1 W2 tail1 tail2 :
  map EvWrite W1 ++ tail1 = map EvWrite W2 ++ tail2 ->
  writes tail1 = [] -> writes tail2 = [] ->
  W1 = W2 /\ tail1 = tail2.
Proof.
  intros H H1 H2.
  assert (HW : W1 = W2).
  { apply (f_equal writes) in H.
    rewrite !writes_app, !writes_map_EvWrite, H1, H2, !app_nil_r in H.
    exact H. }
  subst W2. split; [reflexivity|].
  apply app_inv_head in H. exact H.
Qed.

(** C1: a call made while nothing is pending that starts a send zeroes the
    checksum accumulator, whatever an earlier send left in it; from then on
    the port log grows by written bytes only, at most the frame size plus
    one, and once that many bytes are written (in particular when the send
    is over) the last byte written is the sum modulo 256 of the bytes
    written before it in this send. *)
Theorem checksum_is_sum_of_written_bytes (e0 : env) (s : state)
    (es : list env) :
  sizes_fit -> idle s -> hottIsSending (tick e0 s) = true ->
  let s1 := tick e0 s in
  let s' := run_send es s1 in
  hottMsgCrc s1 = 0 /\
  exists b W tail,
    hottMsg s1 = Some (b, 0%nat) /\
    portLog (hottPort s')
    = portLog (hottPort s) ++ [EvSetMode MODE_TX] ++ map EvWrite W ++ tail /\
    (tail = [] \/ tail = [EvSetMode MODE_RX]) /\
    Z.of_nat (length W) <= sizeof_buffer b + 1 /\
    (Z.of_nat (length W) = sizeof_buffer b + 1 ->
     exists P, W = P ++ [checksum P] /\ Z.of_nat (length P) = sizeof_buffer b) /\
    (hottIsSending s' = false -> Z.of_nat (length W) = sizeof_buffer b + 1).
Proof.
  intros Hfit Hidle Hstart s1 s'.
  destruct (idle_call e0 s Hfit Hidle)
    as [[[Hn _] _] | (b & Hph & _ & Hm1 & Hc1 & _ & _)];
    cbv zeta in *; [congruence|].
  split; [exact Hc1|].
  pose proof (phase_run_send b _ es _ Hfit Hph) as Hph'.
  destruct (phase_written b _ _ Hph') as (W & tail & L & T & C & K & D).
  exists b, W, tail. rewrite <- app_assoc in L.
  repeat split; auto. intros H. apply D, H.
Qed.

(** *** No detection during a send *)

(** A call made during a send that leaves the send active has not run the
    detector: its two variables are untouched and every byte that arrived
    still waits; the port log has grown by written bytes only, and the
    cursor is in the same frame, not before where it was. *)
Lemma sending_call_detector_off e s :
  hottIsSending s = true -> hottIsSending (tick e s) = true ->
  lookingForRequest (tick e s) = lookingForRequest s /\
  lastHoTTRequestCheckAt (tick e s) = lastHoTTRequestCheckAt s /\
  rxBuffer (hottPort (tick e s)) = rxBuffer (hottPort s) ++ wire_in e /\
  (exists W,
     portLog (hottPort (tick e s)) = portLog (hottPort s) ++ map EvWrite W) /\
  (forall b i, hottMsg s = Some (b, i) ->
     exists j, hottMsg (tick e s) = Some (b, j) /\ (i <= j)%nat).
Proof.
  intros Hs. rewrite tick_sending by exact Hs. cbv zeta.
  destruct (refreshed_arrived_frame e s)
    as (R1 & R2 & R3 & R4 & R5 & R6 & R7 & R8 & R9 & R10).
  cbv zeta in *. set (s1 := refreshed e (arrived e s)) in *.
  assert (Hskip :
    lookingForRequest s1 = lookingForRequest s /\
    lastHoTTRequestCheckAt s1 = lastHoTTRequestCheckAt s /\
    rxBuffer (hottPort s1) = rxBuffer (hottPort s) ++ wire_in e /\
    (exists W, portLog (hottPort s1) = portLog (hottPort s) ++ map EvWrite W) /\
    (forall b i, hottMsg s = Some (b, i) ->
       exists j, hottMsg s1 = Some (b, j) /\ (i <= j)%nat)).
  { repeat split; auto.
    - exists []. cbn. rewrite app_nil_r. exact R6.
    - intros b i H. exists i. split; [congruence | lia]. }
  destruct (hottMsg s1) as [[b i]|] eqn:Hm;
    [|intros _; rewrite Hm; exact Hskip].
  destruct (_ <? _); [intros _; rewrite Hm; exact Hskip|]. clear Hskip.
  assert (Hs1 : hottIsSending s1 = true) by congruence.
  destruct (Z.eq_dec (hottMsgRemainingBytesToSendCount s1) 0) as [H0|H0].
  { rewrite hottSendTelemetryData_complete by assumption. cbn. discriminate. }
  destruct (Z.eq_dec (to_uint8 (hottMsgRemainingBytesToSendCount s1 - 1)) 0)
    as [H1|H1].
  - rewrite hottSendTelemetryData_crc by assumption. cbn. intros _.
    repeat split; auto.
    + exists [hottMsgCrc s1]. cbn. congruence.
    + intros b' i' H. exists i'. split; [congruence | lia].
  - rewrite (hottSendTelemetryData_byte s1 b i) by assumption. cbn. intros _.
    repeat split; auto.
    + exists [deref s1 b i]. cbn. congruence.
    + intros b' i' H. exists (S i').
      assert (E : Some (b, i) = Some (b', i')) by congruence.
      injection E as -> ->. split; [reflexivity | lia].
Qed.

(** C2: while [hottIsSending] is set a send request changes nothing and
    the dispatcher does not run the detector; so over any calls [es] after
    which the send is still active, whatever bytes the wire delivered with
    each call are all still waiting unread, the detector's variables are as
    they were, the port log has grown by written bytes only (no second
    switch to transmit mode) and the cursor has stayed in its frame. *)
Theorem one_send_in_flight (es : list env) (s : state) (b : buffer)
    (length : Z) :
  hottIsSending s = true ->
  hottSendResponse b length s = s /\
  shouldCheckForHoTTRequest s = false /\
  (hottIsSending (run_send es s) = true ->
   lookingForRequest (run_send es s) = lookingForRequest s /\
   lastHoTTRequestCheckAt (run_send es s) = lastHoTTRequestCheckAt s /\
   rxBuffer (hottPort (run_send es s))
   = rxBuffer (hottPort s) ++ concat (map wire_in es) /\
   (exists W,
      portLog (hottPort (run_send es s))
      = portLog (hottPort s) ++ map EvWrite W) /\
   (forall b' i, hottMsg s = Some (b', i) ->
      exists j, hottMsg (run_send es s) = Some (b', j) /\ (i <= j)%nat)).
Proof.
  intros Hs. split; [unfold hottSendResponse; now rewrite Hs|].
  split; [unfold shouldCheckForHoTTRequest; now rewrite Hs|].
  revert s Hs. induction es as [|e es IH]; intros s Hs Hend; cbn in *.
  - rewrite app_nil_r. repeat split.
    + exists []. cbn. now rewrite app_nil_r.
    + intros b' i H. exists i. split; [exact H | lia].
  - rewrite Hs in *.
    assert (Hs' : hottIsSending (tick e s) = true).
    { destruct (hottIsSending (tick e s)) eqn:E; [reflexivity|].
      rewrite run_send_not_sending in Hend by exact E. congruence. }
    destruct (sending_call_detector_off e s Hs Hs')
      as (A1 & A2 & A3 & [W1 A4] & A5).
    destruct (IH _ Hs' Hend) as (B1 & B2 & B3 & [W2 B4] & B5).
    repeat split; try congruence.
    + rewrite B3, A3, <- app_assoc. reflexivity.
    + exists (W1 ++ W2). rewrite B4, A4, map_app, <- app_assoc. reflexivity.
    + intros b' i H. destruct (A5 _ _ H) as (j & Hj & Hle).
      destruct (B5 _ _ Hj) as (k & Hk & Hle'). exists k. split; [exact Hk | lia].
Qed.

(** *** Refresh *)

Lemma hottSendTelemetryData_frame s :
  let s' := hottSendTelemetryData s in
  hottGPSMessage s' = hottGPSMessage s /\
  hottEAMMessage s' = hottEAMMessage s /\
  lastMessagesPreparedAt s' = lastMessagesPreparedAt s.
Proof.
  unfold hottSendTelemetryData, hottSerialWrite, flushHottRxBuffer. cbv zeta.
  destruct (negb _); [cbn; auto|].
  destruct (_ =? 0); [cbn; auto|].
  cbn [hottMsgRemainingBytesToSendCount set_hottMsgRemainingBytesToSendCount
       hottMsg].
  destruct (_ =? 0); [cbn; auto|].
  destruct (hottMsg s) as [[b i]|]; cbn; auto.
Qed.

(** C7: whenever the refresh interval (200000 microseconds, 5 Hz) has
    passed on the 32-bit clock since the last refresh, the call re-composes
    both frames from the current vehicle data and records the time of the
    call; no condition on the transmitter is involved, so this also happens
    in the middle of a send. *)
Theorem refresh_is_unconditional (e : env) (s : state) :
  HOTT_MESSAGE_PREPARATION_FREQUENCY_5_HZ
    <= to_uint32 (micros e - lastMessagesPreparedAt s) ->
  HOTT_MESSAGE_PREPARATION_FREQUENCY_5_HZ = 200000 /\
  hottGPSMessage (tick e s) = hottPrepareGPSResponse e (hottGPSMessage s) /\
  hottEAMMessage (tick e s) = hottPrepareEAMResponse e (hottEAMMessage s) /\
  lastMessagesPreparedAt (tick e s) = micros e.
Proof.
  intros Hdue. split; [reflexivity|].
  assert (Hr : refreshed e (arrived e s)
               = set_lastMessagesPreparedAt (micros e)
                   (hottPrepareMessages e (arrived e s))).
  { unfold refreshed, shouldPrepareHoTTMessages.
    cbn [lastMessagesPreparedAt arrived set_hottPort].
    apply Z.leb_le in Hdue. rewrite Hdue. reflexivity. }
  assert (H1 : let s1 := refreshed e (arrived e s) in
               hottGPSMessage s1 = hottPrepareGPSResponse e (hottGPSMessage s) /\
               hottEAMMessage s1 = hottPrepareEAMResponse e (hottEAMMessage s) /\
               lastMessagesPreparedAt s1 = micros e).
  { rewrite Hr. cbn. auto. }
  cbv zeta in H1. clear Hr.
  set (s1 := refreshed e (arrived e s)) in *.
  destruct (hottIsSending s) eqn:Hs.
  - rewrite tick_sending by exact Hs. cbv zeta. fold s1.
    destruct (hottMsg s1); [|exact H1].
    destruct (_ <? _); [exact H1|].
    destruct (hottSendTelemetryData_frame s1) as (F1 & F2 & F3).
    cbn. cbv zeta in *. rewrite F1, F2, F3. exact H1.
  - rewrite tick_not_sending by exact Hs. cbv zeta. fold s1.
    destruct (hottCheckSerialData_frame e (micros e) s1)
      as (_ & _ & _ & _ & _ & G1 & G2 & G3).
    cbv zeta in *. set (s2 := hottCheckSerialData e (micros e) s1) in *.
    destruct (hottMsg s2).
    + destruct (hottSendTelemetryData_frame s2) as (F1 & F2 & F3).
      cbn. cbv zeta in *. rewrite F1, F2, F3, G1, G2, G3. exact H1.
    + rewrite G1, G2, G3. exact H1.
Qed.

(** *** Request detector *)

Lemma two_bytes_waiting s r a :
  rxBuffer (hottPort s) = [r; a] ->
  to_uint8 (serialTotalBytesWaiting (hottPort s)) = 2.
Proof. intros H. unfold serialTotalBytesWaiting. rewrite H. reflexivity. Qed.

(** The detector on a request that has waited long enough: both bytes are
    read, the window is reset, and a request with the binary mode id is
    dispatched on its address. *)
Lemma hottCheckSerialData_consume e now s r a :
  rxBuffer (hottPort s) = [r; a] ->
  lookingForRequest s = false ->
  HOTT_RX_SCHEDULE <= to_uint32 (now - lastHoTTRequestCheckAt s) ->
  hottCheckSerialData e now s =
  let s2 :=
    set_hottPort (mkPort (mode (hottPort s)) [] (portLog (hottPort s)))
      (set_lookingForRequest true s) in
  if r =? HOTT_BINARY_MODE_REQUEST_ID
  then processBinaryModeRequest e a s2
  else s2.
Proof.
  intros Hrx Hl Ht. unfold hottCheckSerialData.
  rewrite (two_bytes_waiting s r a Hrx). cbn [Z.leb Z.eqb Z.compare Pos.compare
    Pos.compare_cont Pos.eqb negb]. rewrite Hl.
  apply Z.leb_le in Ht. rewrite Ht. cbn [negb]. cbv zeta.
  cbn [hottPort set_lookingForRequest]. unfold serialRead at 1. rewrite Hrx.
  unfold serialRead. cbn [rxBuffer mode portLog]. reflexivity.
Qed.

(** C8: with exactly two bytes waiting, the detector on a window that is
    not armed ([lookingForRequest] set) only records the time and arms the
    window; on an armed window it does nothing until 4000 microseconds have
    passed since arming on the 32-bit clock, and then resets the window and
    reads both bytes.  So whenever the two bytes are taken, the window was
    armed by an earlier call, at least 4000 microseconds have passed, and
    the window is disarmed afterwards. *)
Theorem request_window (e : env) (now : Z) (s : state) (r a : Z) :
  rxBuffer (hottPort s) = [r; a] ->
  let s' := hottCheckSerialData e now s in
  let elapsed := to_uint32 (now - lastHoTTRequestCheckAt s) in
  HOTT_RX_SCHEDULE = 4000 /\
  (lookingForRequest s = true ->
   s' = set_lookingForRequest false (set_lastHoTTRequestCheckAt now s)) /\
  (lookingForRequest s = false -> elapsed < HOTT_RX_SCHEDULE -> s' = s) /\
  (lookingForRequest s = false -> HOTT_RX_SCHEDULE <= elapsed ->
   lookingForRequest s' = true /\ rxBuffer (hottPort s') = []) /\
  (rxBuffer (hottPort s') <> [r; a] ->
   lookingForRequest s = false /\ HOTT_RX_SCHEDULE <= elapsed /\
   lookingForRequest s' = true).
Proof.
  intros Hrx s' elapsed. split; [reflexivity|].
  assert (Harm : lookingForRequest s = true ->
    s' = set_lookingForRequest false (set_lastHoTTRequestCheckAt now s)).
  { intros Hl. subst s'. unfold hottCheckSerialData.
    rewrite (two_bytes_waiting s r a Hrx), Hl. reflexivity. }
  assert (Hwait : lookingForRequest s = false ->
    elapsed < HOTT_RX_SCHEDULE -> s' = s).
  { intros Hl Ht. subst s' elapsed. unfold hottCheckSerialData.
    rewrite (two_bytes_waiting s r a Hrx), Hl.
    apply Z.leb_gt in Ht. rewrite Ht. reflexivity. }
  assert (Htake : lookingForRequest s = false ->
    HOTT_RX_SCHEDULE <= elapsed ->
    lookingForRequest s' = true /\ rxBuffer (hottPort s') = []).
  { intros Hl Ht. subst s' elapsed.
    rewrite (hottCheckSerialData_consume e now s r a Hrx Hl Ht). cbv zeta.
    destruct (r =? _); [|cbn; auto].
    match goal with
    | |- context [processBinaryModeRequest e a ?x] =>
        destruct (processBinaryModeRequest_frame e a x)
          as (_ & _ & F3 & _ & _ & _ & _ & F8 & _)
    end.
    cbv zeta in *. rewrite F3, F8. cbn. auto. }
  split; [exact Harm|]. split; [exact Hwait|]. split; [exact Htake|].
  intros H.
  destruct (lookingForRequest s) eqn:Hl.
  { exfalso. apply H. rewrite (Harm eq_refl). cbn. exact Hrx. }
  destruct (Z_lt_ge_dec elapsed HOTT_RX_SCHEDULE) as [Hlt|Hge].
  { exfalso. apply H. rewrite (Hwait eq_refl Hlt). exact Hrx. }
  split; [reflexivity|]. split; [lia|].
  apply Htake; [reflexivity | lia].
Qed.

(** C3 (as amended): when the detector consumes the two bytes of a request
    (no send in progress, window armed for at least 4000 microseconds), a
    request with the binary mode id and address 0x8A points the cursor at
    the start of the GPS frame, with the frame size plus one bytes to send,
    provided the GPS sensor is enabled, and changes nothing about the cursor
    when it is not; address 0x8E does the same for the Battery/EAM frame,
    unconditionally; any other address, and any other request id, leaves
    the cursor as it was. *)
Theorem consumed_request_dispatch (e : env) (now : Z) (s : state) (r a : Z) :
  hottIsSending s = false ->
  rxBuffer (hottPort s) = [r; a] ->
  lookingForRequest s = false ->
  HOTT_RX_SCHEDULE <= to_uint32 (now - lastHoTTRequestCheckAt s) ->
  let s' := hottCheckSerialData e now s in
  let scheduled b :=
    hottMsg s' = Some (b, 0%nat) /\
    hottMsgRemainingBytesToSendCount s'
      = to_uint8 (sizeof_buffer b + HOTT_CRC_SIZE) in
  let nothing :=
    hottMsg s' = hottMsg s /\
    hottMsgRemainingBytesToSendCount s' = hottMsgRemainingBytesToSendCount s in
  (r = HOTT_BINARY_MODE_REQUEST_ID -> a = 138 ->
   sensors e SENSOR_GPS = true -> scheduled GPSMessage) /\
  (r = HOTT_BINARY_MODE_REQUEST_ID -> a = 138 ->
   sensors e SENSOR_GPS = false -> nothing) /\
  (r = HOTT_BINARY_MODE_REQUEST_ID -> a = 142 -> scheduled EAMMessage) /\
  (r = HOTT_BINARY_MODE_REQUEST_ID -> a <> 138 -> a <> 142 -> nothing) /\
  (r <> HOTT_BINARY_MODE_REQUEST_ID -> nothing).
Proof.
  intros Hs Hrx Hl Ht s' scheduled nothing. subst s' scheduled nothing.
  rewrite (hottCheckSerialData_consume e now s r a Hrx Hl Ht). cbv zeta.
  unfold processBinaryModeRequest, hottSendGPSResponse, hottSendEAMResponse,
    hottSendResponse.
  cbn [hottIsSending set_hottPort set_lookingForRequest]. rewrite Hs.
  repeat split; intros.
  all: repeat match goal with
         | H : ?x = ?y |- context [?x =? ?y] => rewrite (proj2 (Z.eqb_eq x y) H)
         | H : ?x <> ?y |- context [?x =? ?y] => rewrite (proj2 (Z.eqb_neq x y) H)
         | H : _ = 138 |- _ => subst a
         | H : _ = 142 |- _ => subst a
         | H : sensors _ SENSOR_GPS = _ |- _ => rewrite H
         end; cbn; try reflexivity.
Qed.

(** C4 (as amended): when more than two bytes are waiting (as counted in
    the detector's [uint8_t]), the detector reads all waiting bytes away
    and resets the window, changing nothing else; with fewer than two bytes
    waiting, one byte included, it returns without touching anything. *)
Theorem noise_is_flushed (e : env) (now : Z) (s : state) :
  let bytesWaiting := to_uint8 (serialTotalBytesWaiting (hottPort s)) in
  let s' := hottCheckSerialData e now s in
  (2 < bytesWaiting ->
   s' = set_lookingForRequest true (flushHottRxBuffer s) /\
   rxBuffer (hottPort s') = [] /\ lookingForRequest s' = true /\
   hottMsg s' = hottMsg s /\ portLog (hottPort s') = portLog (hottPort s)) /\
  (bytesWaiting <= 1 -> s' = s).
Proof.
  intros n s'. subst n s'. unfold hottCheckSerialData. cbv zeta. split.
  - intros H.
    destruct (_ <=? 1) eqn:E1; [apply Z.leb_le in E1; lia|].
    destruct (_ =? 2) eqn:E2; [apply Z.eqb_eq in E2; lia|].
    cbn [negb]. split; [reflexivity|].
    cbn. rewrite flushLoop_empties by lia. cbn. auto.
  - intros H. apply Z.leb_le in H. rewrite H. reflexivity.
Qed.

(** *** States at call boundaries *)

(** Between calls either nothing is pending, or a send is active and in
    one of its phases; so every send of an execution starts from [idle]. *)
Lemma call_boundary_states es :
  sizes_fit ->
  let s := run es initial_state in
  idle s \/ exists b log0, phase b log0 s /\ hottIsSending s = true.
Proof.
  intros Hfit.
  assert (Hinv : forall es s,
    (idle s \/ exists b log0, phase b log0 s /\ hottIsSending s = true) ->
    idle (run es s) \/
    exists b log0, phase b log0 (run es s) /\ hottIsSending (run es s) = true).
  { clear es. induction es as [|e es IH]; intros s Hs; [exact Hs|].
    cbn. apply IH.
    destruct Hs as [Hidle | (b & log0 & Hph & Hs)].
    - destruct (idle_call e s Hfit Hidle) as [[Hi _] | (b & Hph & Hs' & _)];
        cbv zeta in *; [left; exact Hi | right; eauto].
    - pose proof (phase_step b log0 e s Hfit Hph Hs) as Hph'.
      destruct (hottIsSending (tick e s)) eqn:Hs'; [right; eauto|].
      left. destruct (phase_written b log0 _ Hph') as (W & tl & _ & _ & _ & _ & D).
      split; [exact Hs' | apply D, Hs']. }
  apply Hinv. left. split; reflexivity.
Qed.

End SendProperties.

(** * Further properties of the code *)

(** ** Frame codec *)

Section CodecFurther.

Context {hdr : hott_h}.

(** X1: the fix character written by a refresh is '-' without a fix, '3'
    with a fix and at least five satellites, '2' with a fix and fewer; the
    DGPS character is never written. *)
Theorem fix_char_is_none_2D_or_3D (e : env) (m : HOTT_GPS_MSG_t) :
  hottPrepareGPSResponse e m GPS.gps_fix_char
  = (if f_GPS_FIX e
     then if 5 <=? GPS_numSat e then GPS_FIX_CHAR_3D else GPS_FIX_CHAR_2D
     else GPS_FIX_CHAR_NONE) /\
  hottPrepareGPSResponse e m GPS.gps_fix_char <> GPS_FIX_CHAR_DGPS.
Proof.
  unfold hottPrepareGPSResponse, addGPSCoordinates.
  destruct (f_GPS_FIX e); cbn [negb]; cbv zeta;
    [destruct (5 <=? GPS_numSat e)|]; member; split;
    reflexivity || discriminate.
Qed.

(** X2: with a fix, the altitude field holds [GPS_altitude / 10] plus the
    header's offset, low byte first, as long as that sum fits 16 bits. *)
Theorem altitude_encoding (e : env) (m : HOTT_GPS_MSG_t) :
  f_GPS_FIX e = true -> is_uint16 (GPS_altitude e) ->
  0 <= HOTT_GPS_ALTITUDE_OFFSET ->
  GPS_altitude e / 10 + HOTT_GPS_ALTITUDE_OFFSET <= 65535 ->
  let m' := hottPrepareGPSResponse e m in
  0 <= m' GPS.altitude_L <= 255 /\ 0 <= m' GPS.altitude_H <= 255 /\
  m' GPS.altitude_L + 256 * m' GPS.altitude_H
  = GPS_altitude e / 10 + HOTT_GPS_ALTITUDE_OFFSET.
Proof.
  intros Hfix Halt Hoff Hsum m'. subst m'. unfold hottPrepareGPSResponse.
  rewrite Hfix. cbn [negb]. cbv zeta. member.
  rewrite land_255, shiftr_8. unfold is_uint16 in Halt.
  rewrite Z.quot_div_nonneg by lia.
  set (a := GPS_altitude e / 10 + HOTT_GPS_ALTITUDE_OFFSET) in *.
  assert (Ha : 0 <= a) by (subst a; div_lia).
  unfold to_uint8, to_uint16. div_lia.
Qed.

(** X3: with a fix, the home distance is stored exactly, low byte first,
    and the home direction field holds the direction modulo 256. *)
Theorem home_distance_encoding (e : env) (m : HOTT_GPS_MSG_t) :
  f_GPS_FIX e = true -> is_uint16 (GPS_distanceToHome e) ->
  let m' := hottPrepareGPSResponse e m in
  0 <= m' GPS.home_distance_L <= 255 /\ 0 <= m' GPS.home_distance_H <= 255 /\
  m' GPS.home_distance_L + 256 * m' GPS.home_distance_H
  = GPS_distanceToHome e /\
  m' GPS.home_direction = GPS_directionToHome e mod 256.
Proof.
  intros Hfix Hd m'. subst m'. unfold hottPrepareGPSResponse.
  rewrite Hfix. cbn [negb]. cbv zeta. member.
  rewrite land_255, shiftr_8. unfold is_uint16 in Hd.
  unfold to_uint8. repeat split; div_lia.
Qed.

(** X4: a refresh of the Battery/EAM frame clears the warning and alarm
    members, stores the battery voltage low byte first in both voltage
    fields, and leaves every other member as it was. *)
Theorem hottPrepareEAMResponse_fields (e : env) (m : HOTT_EAM_MSG_t) :
  is_uint16 (vbat e) ->
  let m' := hottPrepareEAMResponse e m in
  m' EAM.warning_beeps = 0 /\ m' EAM.alarm_invers1 = 0 /\
  m' EAM.main_voltage_L + 256 * m' EAM.main_voltage_H = vbat e /\
  m' EAM.batt1_voltage_L = m' EAM.main_voltage_L /\
  m' EAM.batt1_voltage_H = m' EAM.main_voltage_H /\
  forall f,
    f <> EAM.warning_beeps -> f <> EAM.alarm_invers1 ->
    f <> EAM.main_voltage_L -> f <> EAM.main_voltage_H ->
    f <> EAM.batt1_voltage_L -> f <> EAM.batt1_voltage_H ->
    m' f = m f.
Proof.
  intros Hv m'. subst m'.
  unfold hottPrepareEAMResponse, hottEAMUpdateBattery. cbv zeta. member.
  rewrite land_255, shiftr_8. unfold is_uint16 in Hv. unfold to_uint8.
  repeat split; try div_lia.
  intros f H1 H2 H3 H4 H5 H6.
  repeat (rewrite EAM_set_other by assumption). reflexivity.
Qed.

(** X5: refreshing twice from the same vehicle data gives the same frame
    as refreshing once, for both frames. *)
Theorem refresh_is_idempotent (e : env) (g : HOTT_GPS_MSG_t)
    (b : HOTT_EAM_MSG_t) :
  (forall f, hottPrepareGPSResponse e (hottPrepareGPSResponse e g) f
             = hottPrepareGPSResponse e g f) /\
  (forall f, hottPrepareEAMResponse e (hottPrepareEAMResponse e b) f
             = hottPrepareEAMResponse e b f).
Proof.
  split; intros f.
  - unfold hottPrepareGPSResponse, addGPSCoordinates.
    destruct (f_GPS_FIX e); cbn [negb]; cbv zeta;
      [destruct (5 <=? GPS_numSat e)|]; destruct f; member; reflexivity.
  - unfold hottPrepareEAMResponse, hottEAMUpdateBattery. cbv zeta.
    destruct f; member; reflexivity.
Qed.

(** X6: for a coordinate that is not negative the stored minutes are below
    60, the stored seconds*100 at most 9999, and the stored values give
    back the coordinate to within a hundredth of a second of arc: six times
    the coordinate exceeds [deg*60000000 + min*1000000 + sec*100] by less
    than 100. *)
Theorem coordinate_precision (m : HOTT_GPS_MSG_t) (latitude longitude : Z) :
  is_int32 latitude -> is_int32 longitude ->
  0 <= latitude -> 0 <= longitude ->
  let m' := addGPSCoordinates m latitude longitude in
  let decoded6 dm sc := dm / 100 * 60000000 + dm mod 100 * 1000000 + sc * 100 in
  let ns_dm := m' GPS.pos_NS_dm_L + 256 * m' GPS.pos_NS_dm_H in
  let ns_sec := m' GPS.pos_NS_sec_L + 256 * m' GPS.pos_NS_sec_H in
  let ew_dm := m' GPS.pos_EW_dm_L + 256 * m' GPS.pos_EW_dm_H in
  let ew_sec := m' GPS.pos_EW_sec_L + 256 * m' GPS.pos_EW_sec_H in
  (ns_dm mod 100 < 60 /\ 0 <= ns_sec <= 9999 /\
   0 <= 6 * latitude - decoded6 ns_dm ns_sec < 100) /\
  (ew_dm mod 100 < 60 /\ 0 <= ew_sec <= 9999 /\
   0 <= 6 * longitude - decoded6 ew_dm ew_sec < 100).
Proof.
  intros Hlat Hlon Plat Plon m' decoded6 ns_dm ns_sec ew_dm ew_sec.
  assert (Hone : forall v, is_int32 v -> 0 <= v ->
    spec_degMin v mod 100 < 60 /\ 0 <= spec_sec v <= 9999 /\
    0 <= 6 * v - decoded6 (spec_degMin v) (spec_sec v) < 100).
  { intros v Hv Pv. subst decoded6. cbv beta.
    unfold spec_degMin, spec_sec, spec_min, spec_sec0, spec_deg, is_int32 in *.
    div_lia. }
  subst m' ns_dm ns_sec ew_dm ew_sec.
  unfold addGPSCoordinates. cbv zeta. member.
  pose proof (packed_coordinate latitude Hlat) as Qlat.
  pose proof (packed_coordinate longitude Hlon) as Qlon.
  cbv zeta in Qlat, Qlon.
  destruct Qlat as (_ & _ & _ & _ & _ & Qlat).
  destruct Qlon as (_ & _ & _ & _ & _ & Qlon).
  destruct (Qlat Plat) as [E1 E2]. destruct (Qlon Plon) as [E3 E4].
  rewrite E1, E2, E3, E4.
  split; [apply (Hone latitude) | apply (Hone longitude)]; assumption.
Qed.

(** X7: [addGPSCoordinates] writes the ten members of the two positions and
    no other member of the frame. *)
Theorem addGPSCoordinates_writes_positions_only (m : HOTT_GPS_MSG_t)
    (latitude longitude : Z) (f : GPS.field) :
  ~ In f [GPS.pos_NS; GPS.pos_NS_dm_L; GPS.pos_NS_dm_H;
          GPS.pos_NS_sec_L; GPS.pos_NS_sec_H;
          GPS.pos_EW; GPS.pos_EW_dm_L; GPS.pos_EW_dm_H;
          GPS.pos_EW_sec_L; GPS.pos_EW_sec_H] ->
  addGPSCoordinates m latitude longitude f = m f.
Proof.
  intros H. unfold addGPSCoordinates. cbv zeta.
  destruct f; try (exfalso; apply H; cbn; tauto); member; reflexivity.
Qed.

Lemma hottPrepareGPSResponse_bytes e m :
  GPS_bytes m -> GPS_bytes (hottPrepareGPSResponse e m).
Proof.
  intros Hm f. unfold hottPrepareGPSResponse, addGPSCoordinates.
  destruct (f_GPS_FIX e); cbn [negb]; cbv zeta;
    [destruct (5 <=? GPS_numSat e)|];
    destruct f; member;
    try apply Hm; try apply to_uint8_range;
    try (unfold GPS_FIX_CHAR_3D, GPS_FIX_CHAR_2D, GPS_FIX_CHAR_NONE; lia);
    unfold b2z; destruct (_ <? 0); lia.
Qed.

Lemma hottPrepareEAMResponse_bytes e m :
  EAM_bytes m -> EAM_bytes (hottPrepareEAMResponse e m).
Proof.
  intros Hm f. unfold hottPrepareEAMResponse, hottEAMUpdateBattery. cbv zeta.
  destruct f; member; try apply Hm; try apply to_uint8_range; lia.
Qed.

Lemma hottPrepareGPSResponse_header e m f :
  In f [GPS.start_byte; GPS.gps_sensor_id; GPS.sensor_id; GPS.stop_byte] ->
  hottPrepareGPSResponse e m f = m f.
Proof.
  intros H. unfold hottPrepareGPSResponse, addGPSCoordinates.
  destruct (f_GPS_FIX e); cbn [negb]; cbv zeta;
    [destruct (5 <=? GPS_numSat e)|];
    cbn in H; destruct H as [<-|[<-|[<-|[<-|[]]]]]; member; reflexivity.
Qed.

Lemma hottPrepareEAMResponse_header e m f :
  In f [EAM.start_byte; EAM.eam_sensor_id; EAM.sensor_id; EAM.stop_byte] ->
  hottPrepareEAMResponse e m f = m f.
Proof.
  intros H. unfold hottPrepareEAMResponse, hottEAMUpdateBattery. cbv zeta.
  cbn in H; destruct H as [<-|[<-|[<-|[<-|[]]]]]; member; reflexivity.
Qed.

End CodecFurther.

(** ** Executions *)

Section ExecutionProperties.

Context {hdr : hott_h}.

(** The frames and the refresh time after a call are those the refresh
    step of the call left: neither the detector nor the transmitter writes
    them. *)
Lemma tick_frames e s :
  hottGPSMessage (tick e s) = hottGPSMessage (refreshed e (arrived e s)) /\
  hottEAMMessage (tick e s) = hottEAMMessage (refreshed e (arrived e s)) /\
  lastMessagesPreparedAt (tick e s)
  = lastMessagesPreparedAt (refreshed e (arrived e s)).
Proof.
  set (s1 := refreshed e (arrived e s)).
  destruct (hottIsSending s) eqn:Hs.
  - rewrite tick_sending by exact Hs. cbv zeta. fold s1.
    destruct (hottMsg s1); [|auto].
    destruct (_ <? _); [auto|].
    destruct (hottSendTelemetryData_frame s1) as (F1 & F2 & F3).
    cbn. cbv zeta in *. auto.
  - rewrite tick_not_sending by exact Hs. cbv zeta. fold s1.
    destruct (hottCheckSerialData_frame e (micros e) s1)
      as (_ & _ & _ & _ & _ & G1 & G2 & G3).
    cbv zeta in *. set (s2 := hottCheckSerialData e (micros e) s1) in *.
    destruct (hottMsg s2); [|auto].
    destruct (hottSendTelemetryData_frame s2) as (F1 & F2 & F3).
    cbn. cbv zeta in *. rewrite F1, F2, F3. auto.
Qed.

Lemma refreshed_frames e s :
  (hottGPSMessage (refreshed e (arrived e s)) = hottGPSMessage s /\
   hottEAMMessage (refreshed e (arrived e s)) = hottEAMMessage s /\
   lastMessagesPreparedAt (refreshed e (arrived e s))
   = lastMessagesPreparedAt s /\
   to_uint32 (micros e - lastMessagesPreparedAt s)
   < HOTT_MESSAGE_PREPARATION_FREQUENCY_5_HZ)
  \/
  (hottGPSMessage (refreshed e (arrived e s))
   = hottPrepareGPSResponse e (hottGPSMessage s) /\
   hottEAMMessage (refreshed e (arrived e s))
   = hottPrepareEAMResponse e (hottEAMMessage s) /\
   lastMessagesPreparedAt (refreshed e (arrived e s)) = micros e /\
   HOTT_MESSAGE_PREPARATION_FREQUENCY_5_HZ
   <= to_uint32 (micros e - lastMessagesPreparedAt s)).
Proof.
  unfold refreshed, shouldPrepareHoTTMessages.
  cbn [lastMessagesPreparedAt arrived set_hottPort].
  destruct (_ <=? _) eqn:E.
  - right. apply Z.leb_le in E. cbn. auto.
  - left. apply Z.leb_gt in E. cbn. auto.
Qed.

(** X8: a call made before the refresh interval has passed leaves both
    frames and the refresh time exactly as they were, whatever else it
    does. *)
Theorem no_refresh_before_interval (e : env) (s : state) :
  to_uint32 (micros e - lastMessagesPreparedAt s)
    < HOTT_MESSAGE_PREPARATION_FREQUENCY_5_HZ ->
  hottGPSMessage (tick e s) = hottGPSMessage s /\
  hottEAMMessage (tick e s) = hottEAMMessage s /\
  lastMessagesPreparedAt (tick e s) = lastMessagesPreparedAt s.
Proof.
  intros H. destruct (tick_frames e s) as (T1 & T2 & T3).
  rewrite T1, T2, T3.
  destruct (refreshed_frames e s) as [(R1 & R2 & R3 & _)|(_ & _ & _ & R)];
    [auto | lia].
Qed.

(** X9: over any calls, from any state, the start and stop markers and the
    two sensor ids of both frames stay what they were; after start-up they
    are 0x7C, 0x7D and the header's ids for ever. *)
Theorem frames_keep_header_and_trailer (es : list env) (s : state) :
  (forall f,
     In f [GPS.start_byte; GPS.gps_sensor_id; GPS.sensor_id; GPS.stop_byte] ->
     hottGPSMessage (run es s) f = hottGPSMessage s f) /\
  (forall f,
     In f [EAM.start_byte; EAM.eam_sensor_id; EAM.sensor_id; EAM.stop_byte] ->
     hottEAMMessage (run es s) f = hottEAMMessage s f) /\
  map (hottGPSMessage (run es initial_state))
    [GPS.start_byte; GPS.gps_sensor_id; GPS.sensor_id; GPS.stop_byte]
  = [124; HOTT_TELEMETRY_GPS_SENSOR_ID; HOTT_GPS_SENSOR_TEXT_ID; 125] /\
  map (hottEAMMessage (run es initial_state))
    [EAM.start_byte; EAM.eam_sensor_id; EAM.sensor_id; EAM.stop_byte]
  = [124; HOTT_TELEMETRY_EAM_SENSOR_ID; HOTT_EAM_SENSOR_TEXT_ID; 125].
Proof.
  assert (HG : forall es s f,
    In f [GPS.start_byte; GPS.gps_sensor_id; GPS.sensor_id; GPS.stop_byte] ->
    hottGPSMessage (run es s) f = hottGPSMessage s f).
  { clear. induction es as [|e es IH]; intros s f Hf; cbn [run]; [reflexivity|].
    rewrite IH by exact Hf. destruct (tick_frames e s) as (T1 & _). rewrite T1.
    destruct (refreshed_frames e s) as [(R1 & _)|(R1 & _)]; rewrite R1;
      [reflexivity | apply hottPrepareGPSResponse_header, Hf]. }
  assert (HE : forall es s f,
    In f [EAM.start_byte; EAM.eam_sensor_id; EAM.sensor_id; EAM.stop_byte] ->
    hottEAMMessage (run es s) f = hottEAMMessage s f).
  { clear. induction es as [|e es IH]; intros s f Hf; cbn [run]; [reflexivity|].
    rewrite IH by exact Hf. destruct (tick_frames e s) as (_ & T2 & _).
    rewrite T2.
    destruct (refreshed_frames e s) as [(_ & R2 & _)|(_ & R2 & _)]; rewrite R2;
      [reflexivity | apply hottPrepareEAMResponse_header, Hf]. }
  split; [apply HG|]. split; [apply HE|].
  cbn [map]. rewrite !HG, !HE by (cbn; tauto).
  split; reflexivity.
Qed.

(** X10: frames whose members all hold bytes keep holding bytes over any
    calls. *)
Theorem frames_stay_bytes (es : list env) (s : state) :
  GPS_bytes (hottGPSMessage s) -> EAM_bytes (hottEAMMessage s) ->
  GPS_bytes (hottGPSMessage (run es s)) /\
  EAM_bytes (hottEAMMessage (run es s)).
Proof.
  revert s. induction es as [|e es IH]; intros s HG HE; cbn [run]; [auto|].
  destruct (tick_frames e s) as (T1 & T2 & _).
  apply IH.
  - rewrite T1.
    destruct (refreshed_frames e s) as [(R1 & _)|(R1 & _)]; rewrite R1;
      [exact HG | apply hottPrepareGPSResponse_bytes, HG].
  - rewrite T2.
    destruct (refreshed_frames e s) as [(_ & R2 & _)|(_ & R2 & _)]; rewrite R2;
      [exact HE | apply hottPrepareEAMResponse_bytes, HE].
Qed.

(** X11: the detector never touches the line or the transmitter: the port
    log, the port mode, [hottIsSending], the checksum accumulator and both
    frames are as before, and the receive queue has only lost bytes from its
    front. *)
Theorem detector_only_reads (e : env) (now : Z) (s : state) :
  let s' := hottCheckSerialData e now s in
  portLog (hottPort s') = portLog (hottPort s) /\
  mode (hottPort s') = mode (hottPort s) /\
  hottIsSending s' = hottIsSending s /\
  hottMsgCrc s' = hottMsgCrc s /\
  hottGPSMessage s' = hottGPSMessage s /\
  hottEAMMessage s' = hottEAMMessage s /\
  exists k, rxBuffer (hottPort s') = skipn k (rxBuffer (hottPort s)).
Proof.
  destruct (hottCheckSerialData_frame e now s)
    as (F1 & F2 & F3 & F4 & _ & F6 & F7 & _).
  cbv zeta in *. repeat (split; [assumption|]).
  unfold hottCheckSerialData. cbv zeta.
  destruct (_ <=? 1); [exists 0%nat; reflexivity|].
  destruct (negb _).
  { exists (length (rxBuffer (hottPort s))). cbn.
    rewrite flushLoop_empties by lia. cbn. now rewrite skipn_all. }
  destruct (lookingForRequest s); [exists 0%nat; reflexivity|].
  destruct (negb _); [exists 0%nat; reflexivity|].
  cbn [hottPort set_lookingForRequest].
  pose proof (serialRead_port (hottPort s)) as (_ & _ & T1).
  destruct (serialRead (hottPort s)) as [r p1]. cbn [snd] in T1.
  pose proof (serialRead_port p1) as (_ & _ & T2).
  destruct (serialRead p1) as [a p2]. cbn [snd] in T2.
  assert (Hp2 : rxBuffer p2 = skipn 2 (rxBuffer (hottPort s))).
  { rewrite T2, T1. destruct (rxBuffer (hottPort s)) as [|x [|y l]]; reflexivity. }
  exists 2%nat. rewrite <- Hp2.
  destruct (r =? _); [|reflexivity].
  match goal with
  | |- context [processBinaryModeRequest e a ?x] =>
      destruct (processBinaryModeRequest_frame e a x) as (_ & _ & P3 & _)
  end.
  cbv zeta in P3. rewrite P3. reflexivity.
Qed.

(** *** States between calls *)

Lemma port_discipline_app m l1 l2 :
  port_discipline m (l1 ++ l2)
  = match port_discipline m l1 with
    | Some m' => port_discipline m' l2
    | None => None
    end.
Proof.
  revert m. induction l1 as [|[m'|c] l1 IH]; intros m; cbn;
    [reflexivity | apply IH |].
  destruct m; [reflexivity | apply IH].
Qed.

Lemma port_discipline_writes W :
  port_discipline MODE_TX (map EvWrite W) = Some MODE_TX.
Proof. induction W; cbn; auto. Qed.

Lemma idle_call_mode e s :
  idle s -> idle (tick e s) ->
  mode (hottPort (tick e s)) = mode (hottPort s).
Proof.
  intros [Hs Hm]. rewrite tick_not_sending by exact Hs. cbv zeta.
  destruct (refreshed_arrived_frame e s) as (_ & _ & _ & _ & R5 & _).
  cbv zeta in R5.
  destruct (hottCheckSerialData_frame e (micros e) (refreshed e (arrived e s)))
    as (_ & _ & F3 & _).
  cbv zeta in F3.
  destruct (hottMsg (hottCheckSerialData e (micros e)
                       (refreshed e (arrived e s)))).
  - intros [H _]. cbn in H.
    rewrite hottSendTelemetryData_start in H; [discriminate|].
    destruct (hottCheckSerialData_frame e (micros e)
                (refreshed e (arrived e s))) as (F1 & _).
    destruct (refreshed_arrived_frame e s) as (R1 & _).
    cbv zeta in *. congruence.
  - intros _. congruence.
Qed.

Lemma in_send_port s :
  in_send s ->
  hottMsg s <> None /\ mode (hottPort s) = MODE_TX /\
  port_discipline MODE_RX (portLog (hottPort s)) = Some MODE_TX.
Proof.
  intros (b & log0 & Hph & Hs & Hd).
  destruct Hph as [P _ Hm _ _ _ Hmode Hlog | P _ Hm _ _ Hmode Hlog
                  | P Hn _ _ _ _ _]; [| |congruence];
    (split; [congruence|]); (split; [exact Hmode|]);
    rewrite Hlog, port_discipline_app, Hd; apply port_discipline_writes.
Qed.

Lemma call_boundary_step e s :
  sizes_fit -> call_boundary s -> call_boundary (tick e s).
Proof.
  intros Hfit [(Hidle & Hmode & Hd) | (b & log0 & Hph & Hs & Hd)].
  - destruct (idle_call e s Hfit Hidle)
      as [[Hi Hl] | (b & Hph & Hs' & _ & _ & _ & _)]; cbv zeta in *.
    + left. split; [exact Hi|].
      rewrite (idle_call_mode e s Hidle Hi), Hl. auto.
    + right. exists b, (portLog (hottPort s) ++ [EvSetMode MODE_TX]).
      split; [exact Hph|]. split; [exact Hs'|].
      rewrite port_discipline_app, Hd. reflexivity.
  - pose proof (phase_step b log0 e s Hfit Hph Hs) as Hph'.
    destruct (hottIsSending (tick e s)) eqn:Hs'.
    + right. exists b, log0. auto.
    + left.
      destruct Hph' as [P ? _ _ _ _ _ _ | P ? _ _ _ _ _
                       | P _ Hm _ Hmode _ Hlog]; [congruence | congruence |].
      split; [split; assumption|]. split; [exact Hmode|].
      rewrite Hlog, port_discipline_app, Hd, port_discipline_app,
        port_discipline_writes.
      reflexivity.
Qed.

Lemma call_boundary_run es :
  sizes_fit -> call_boundary (run es initial_state).
Proof.
  intros Hfit.
  assert (H : forall es s, call_boundary s -> call_boundary (run es s)).
  { clear es. induction es as [|e es IH]; intros s Hs; cbn; [exact Hs|].
    apply IH, call_boundary_step; assumption. }
  apply H. left. repeat split.
Qed.

(** X12: between the calls of any execution from start-up, the cursor is
    null exactly when no send is in progress, and the port is in transmit
    mode exactly when one is. *)
Theorem cursor_and_mode_follow_sending (es : list env) :
  sizes_fit ->
  let s := run es initial_state in
  (hottMsg s = None <-> hottIsSending s = false) /\
  (mode (hottPort s) = MODE_TX <-> hottIsSending s = true).
Proof.
  intros Hfit s. subst s.
  destruct (call_boundary_run es Hfit) as [([Hs Hm] & Hmode & _) | Hin].
  - rewrite Hs, Hm, Hmode. repeat split; congruence.
  - destruct (in_send_port _ Hin) as (Hm & Hmode & _).
    destruct Hin as (_ & _ & _ & Hs & _). rewrite Hs, Hmode.
    repeat split; congruence.
Qed.

(** X13: in any execution from start-up no byte is ever written while the
    port is in receive mode: replaying the port log from receive mode never
    fails, and ends in the mode the port is in. *)
Theorem no_write_in_receive_mode (es : list env) :
  sizes_fit ->
  port_discipline MODE_RX (portLog (hottPort (run es initial_state)))
  = Some (mode (hottPort (run es initial_state))).
Proof.
  intros Hfit.
  destruct (call_boundary_run es Hfit) as [(_ & Hmode & Hd) | Hin].
  - rewrite Hd, Hmode. reflexivity.
  - destruct (in_send_port _ Hin) as (_ & Hmode & Hd).
    rewrite Hd, Hmode. reflexivity.
Qed.

(** *** From a request to the start of its answer *)

(** The call during which the two bytes of a request arrive, on an empty
    queue and a window that is not armed, only arms the window. *)
Lemma arming_call e s r a :
  idle s -> rxBuffer (hottPort s) = [] -> lookingForRequest s = true ->
  wire_in e = [r; a] ->
  tick e s
  = set_lookingForRequest false
      (set_lastHoTTRequestCheckAt (micros e) (refreshed e (arrived e s))).
Proof.
  intros [Hs Hm] Hrx Hl Hw. rewrite tick_not_sending by exact Hs. cbv zeta.
  destruct (refreshed_arrived_frame e s)
    as (R1 & R2 & _ & _ & _ & _ & R7 & _ & R9 & _).
  cbv zeta in *. set (s1 := refreshed e (arrived e s)) in *.
  rewrite Hrx, Hw in R7. cbn in R7.
  assert (E : hottCheckSerialData e (micros e) s1
              = set_lookingForRequest false
                  (set_lastHoTTRequestCheckAt (micros e) s1)).
  { unfold hottCheckSerialData.
    rewrite (two_bytes_waiting s1 r a R7), R9, Hl. reflexivity. }
  rewrite E. cbn. rewrite R2, Hm. reflexivity.
Qed.

(** The call that finds a request waiting in an armed window after the
    settle time: the detector takes both bytes, dispatches, and the
    transmitter is entered when a frame has been selected. *)
Lemma consuming_call e s r a :
  hottIsSending s = false ->
  rxBuffer (hottPort s) ++ wire_in e = [r; a] ->
  lookingForRequest s = false ->
  HOTT_RX_SCHEDULE <= to_uint32 (micros e - lastHoTTRequestCheckAt s) ->
  let s1 := refreshed e (arrived e s) in
  let s2 :=
    set_hottPort (mkPort (mode (hottPort s1)) [] (portLog (hottPort s1)))
      (set_lookingForRequest true s1) in
  let s3 :=
    if r =? HOTT_BINARY_MODE_REQUEST_ID
    then processBinaryModeRequest e a s2 else s2 in
  tick e s
  = match hottMsg s3 with
    | None => s3
    | Some _ => set_serialTimer (micros e) (hottSendTelemetryData s3)
    end.
Proof.
  intros Hs Hrx Hl Ht. rewrite tick_not_sending by exact Hs. cbv zeta.
  destruct (refreshed_arrived_frame e s)
    as (_ & _ & _ & _ & _ & _ & R7 & _ & R9 & R10).
  cbv zeta in *. set (s1 := refreshed e (arrived e s)) in *.
  rewrite (hottCheckSerialData_consume e (micros e) s1 r a);
    [reflexivity | congruence | congruence | rewrite R10; exact Ht].
Qed.

(** X14: a request for the Battery/EAM frame, or for the GPS frame when the
    GPS sensor is enabled, that arrives at an idle detector is answered in
    two calls: the call that sees it arrive only arms the window and
    leaves the bytes waiting; a call at least 4000 microseconds later
    takes the bytes and starts the send, with the cursor at the start of the
    requested frame, its size plus one bytes to go, the checksum accumulator
    at zero and the port switched to transmit mode. *)
Theorem request_is_answered_by_second_call (e1 e2 : env) (s : state)
    (a : Z) (b : buffer) :
  idle s -> rxBuffer (hottPort s) = [] -> lookingForRequest s = true ->
  wire_in e1 = [HOTT_BINARY_MODE_REQUEST_ID; a] -> wire_in e2 = [] ->
  HOTT_RX_SCHEDULE <= to_uint32 (micros e2 - micros e1) ->
  (a = 142 /\ b = EAMMessage) \/
  (a = 138 /\ b = GPSMessage /\ sensors e2 SENSOR_GPS = true) ->
  let s1 := tick e1 s in
  let s2 := tick e2 s1 in
  (hottIsSending s1 = false /\
   rxBuffer (hottPort s1) = [HOTT_BINARY_MODE_REQUEST_ID; a] /\
   portLog (hottPort s1) = portLog (hottPort s)) /\
  (hottIsSending s2 = true /\ hottMsg s2 = Some (b, 0%nat) /\
   hottMsgRemainingBytesToSendCount s2
   = to_uint8 (sizeof_buffer b + HOTT_CRC_SIZE) /\
   hottMsgCrc s2 = 0 /\
   rxBuffer (hottPort s2) = [] /\ lookingForRequest s2 = true /\
   mode (hottPort s2) = MODE_TX /\
   portLog (hottPort s2) = portLog (hottPort s) ++ [EvSetMode MODE_TX]).
Proof.
  intros Hidle Hrx Hl Hw1 Hw2 Ht Hab s1 s2. subst s1 s2.
  rewrite (arming_call e1 s _ _ Hidle Hrx Hl Hw1).
  destruct Hidle as [Hs Hm].
  destruct (refreshed_arrived_frame e1 s)
    as (R1 & R2 & _ & _ & _ & R6 & R7 & _).
  cbv zeta in *. set (t1 := refreshed e1 (arrived e1 s)) in *.
  rewrite Hrx, Hw1 in R7. cbn [app] in R7.
  set (s1 := set_lookingForRequest false
               (set_lastHoTTRequestCheckAt (micros e1) t1)).
  assert (A1 : hottIsSending s1 = false) by (cbn; congruence).
  assert (A2 : rxBuffer (hottPort s1) = [HOTT_BINARY_MODE_REQUEST_ID; a])
    by (cbn; exact R7).
  assert (A3 : portLog (hottPort s1) = portLog (hottPort s))
    by (cbn; exact R6).
  split; [auto|].
  rewrite (consuming_call e2 s1 HOTT_BINARY_MODE_REQUEST_ID a A1);
    [| rewrite A2, Hw2; reflexivity | reflexivity | exact Ht].
  cbv zeta. rewrite Z.eqb_refl.
  destruct (refreshed_arrived_frame e2 s1)
    as (Q1 & Q2 & _ & _ & _ & Q6 & _).
  cbv zeta in *. set (t2 := refreshed e2 (arrived e2 s1)) in *.
  assert (B1 : hottIsSending t2 = false) by congruence.
  unfold processBinaryModeRequest, hottSendGPSResponse, hottSendEAMResponse,
    hottSendResponse.
  cbn [hottIsSending set_hottPort set_lookingForRequest]. rewrite B1.
  destruct Hab as [[-> ->] | (-> & -> & Hgps)]; cbn [Z.eqb Pos.eqb];
    rewrite ?Hgps; cbn [hottMsg set_hottMsg set_hottMsgRemainingBytesToSendCount];
    rewrite hottSendTelemetryData_start by (cbn; exact B1);
    cbn; rewrite Q6, A3; repeat split.
Qed.

(** X15: a request with another request id, with an address that is
    neither 0x8A nor 0x8E, or for the GPS frame while the GPS sensor is not
    enabled, is taken from the queue by the second call and dropped: no
    send starts, nothing is written, the queue is empty and the window is
    ready for the next request. *)
Theorem request_is_dropped_by_second_call (e1 e2 : env) (s : state)
    (r a : Z) :
  idle s -> rxBuffer (hottPort s) = [] -> lookingForRequest s = true ->
  wire_in e1 = [r; a] -> wire_in e2 = [] ->
  HOTT_RX_SCHEDULE <= to_uint32 (micros e2 - micros e1) ->
  r <> HOTT_BINARY_MODE_REQUEST_ID \/ (a <> 138 /\ a <> 142) \/
  (a = 138 /\ sensors e2 SENSOR_GPS = false) ->
  let s2 := tick e2 (tick e1 s) in
  idle s2 /\ rxBuffer (hottPort s2) = [] /\ lookingForRequest s2 = true /\
  mode (hottPort s2) = mode (hottPort s) /\
  portLog (hottPort s2) = portLog (hottPort s).
Proof.
  intros Hidle Hrx Hl Hw1 Hw2 Ht Hra s2. subst s2.
  rewrite (arming_call e1 s _ _ Hidle Hrx Hl Hw1).
  destruct Hidle as [Hs Hm].
  destruct (refreshed_arrived_frame e1 s)
    as (R1 & R2 & _ & _ & R5 & R6 & R7 & _).
  cbv zeta in *. set (t1 := refreshed e1 (arrived e1 s)) in *.
  rewrite Hrx, Hw1 in R7. cbn [app] in R7.
  set (s1 := set_lookingForRequest false
               (set_lastHoTTRequestCheckAt (micros e1) t1)).
  assert (A1 : hottIsSending s1 = false) by (cbn; congruence).
  assert (A2 : rxBuffer (hottPort s1) = [r; a]) by (cbn; exact R7).
  assert (A3 : portLog (hottPort s1) = portLog (hottPort s))
    by (cbn; exact R6).
  assert (A4 : hottMsg s1 = None) by (cbn; congruence).
  assert (A5 : mode (hottPort s1) = mode (hottPort s)) by (cbn; exact R5).
  rewrite (consuming_call e2 s1 r a A1);
    [| rewrite A2, Hw2; reflexivity | reflexivity | exact Ht].
  cbv zeta.
  destruct (refreshed_arrived_frame e2 s1)
    as (Q1 & Q2 & _ & _ & Q5 & Q6 & _).
  cbv zeta in *. set (t2 := refreshed e2 (arrived e2 s1)) in *.
  assert (E : (if r =? HOTT_BINARY_MODE_REQUEST_ID
               then processBinaryModeRequest e2 a
                      (set_hottPort
                         (mkPort (mode (hottPort t2)) [] (portLog (hottPort t2)))
                         (set_lookingForRequest true t2))
               else set_hottPort
                      (mkPort (mode (hottPort t2)) [] (portLog (hottPort t2)))
                      (set_lookingForRequest true t2))
              = set_hottPort
                  (mkPort (mode (hottPort t2)) [] (portLog (hottPort t2)))
                  (set_lookingForRequest true t2)).
  { destruct (r =? HOTT_BINARY_MODE_REQUEST_ID) eqn:Er; [|reflexivity].
    apply Z.eqb_eq in Er. unfold processBinaryModeRequest.
    destruct Hra as [Hr | [[H1 H2] | [-> Hgps]]].
    - contradiction.
    - apply Z.eqb_neq in H1, H2. rewrite H1, H2. reflexivity.
    - cbn [Z.eqb Pos.eqb]. rewrite Hgps. reflexivity. }
  rewrite E. cbn [hottMsg set_hottPort set_lookingForRequest].
  rewrite Q2, A4. cbn. unfold idle. cbn.
  repeat split; congruence.
Qed.

(** *** A send during which no refresh falls *)

Lemma deref_frames s t b i :
  hottGPSMessage s = hottGPSMessage t ->
  hottEAMMessage s = hottEAMMessage t ->
  deref s b i = deref t b i.
Proof. intros HG HE. unfold deref. rewrite HG, HE. reflexivity. Qed.

Lemma frame_bytes_succ t0 b k :
  frame_bytes t0 b (S k) = frame_bytes t0 b k ++ [deref t0 b k].
Proof. unfold frame_bytes. rewrite seq_S, map_app. reflexivity. Qed.

Lemma frame_bytes_length t0 b k : length (frame_bytes t0 b k) = k.
Proof. unfold frame_bytes. now rewrite length_map, length_seq. Qed.

(** The bytes written since the switch to transmit mode that ends [log0]. *)
Lemma written_since log0 X s :
  portLog (hottPort s) = log0 ++ X ->
  writes (skipn (length log0) (portLog (hottPort s))) = writes X.
Proof. intros H. rewrite H, skipn_length_app. reflexivity. Qed.

(** While no refresh falls into a send, the frames stay as they were when
    the send started and the payload bytes written so far are the bytes of
    the frame, in order. *)
Lemma unrefreshed_send_inv t0 b log0 es s :
  sizes_fit ->
  phase b log0 s ->
  hottGPSMessage s = hottGPSMessage t0 ->
  hottEAMMessage s = hottEAMMessage t0 ->
  lastMessagesPreparedAt s = lastMessagesPreparedAt t0 ->
  no_refresh_due (lastMessagesPreparedAt t0) es ->
  (let W := writes (skipn (length log0) (portLog (hottPort s))) in
   let n := Z.to_nat (sizeof_buffer b) in
   firstn n W = frame_bytes t0 b (Nat.min n (length W))) ->
  let W := writes (skipn (length log0) (portLog (hottPort (run_send es s)))) in
  let n := Z.to_nat (sizeof_buffer b) in
  firstn n W = frame_bytes t0 b (Nat.min n (length W)).
Proof.
  intros Hfit. revert s.
  induction es as [|e es IH]; intros s Hph HG HE HL Hdue HW; [exact HW|].
  cbn [run_send]. destruct (hottIsSending s) eqn:Hs; [|exact HW].
  inversion Hdue as [|e' es' Hd Hdue']; subst e' es'.
  destruct (tick_frames e s) as (T1 & T2 & T3).
  destruct (refreshed_frames e s) as [(R1 & R2 & R3 & _)|(_ & _ & _ & R)];
    [|rewrite HL in R; lia].
  apply IH;
    [apply phase_step; assumption | congruence | congruence | congruence
    | exact Hdue' |].
  cbv zeta in *. specialize (Hfit b) as Hb.
  pose proof (phase_step b log0 e s Hfit Hph Hs) as Hph'.
  destruct (sending_call b log0 e s Hfit Hph Hs)
    as [(_ & _ & Hl & _) | (Hdel & _ & [(c & Hl & Hs' & Hr) | (Hl & _ & _)])];
    cbv zeta in *.
  - rewrite Hl. exact HW.
  - destruct Hph as [P _ Hm Hle Hrem _ _ Hlog | P _ _ Hlen Hrem _ Hlog
                    | P ? _ _ _ _ _]; [| |congruence].
    + (* a payload byte or the checksum *)
      rewrite (written_since log0 (map EvWrite P) s Hlog),
        writes_map_EvWrite in HW.
      assert (HlogW : portLog (hottPort (tick e s))
                      = log0 ++ map EvWrite (P ++ [c])).
      { rewrite Hl, Hlog, map_app, <- app_assoc. reflexivity. }
      rewrite (written_since log0 _ _ HlogW), writes_map_EvWrite.
      rewrite length_app. cbn [length].
      destruct (Z.eq_dec (Z.of_nat (length P)) (sizeof_buffer b)) as [Hk|Hk].
      * assert (Hn : length P = Z.to_nat (sizeof_buffer b)) by lia.
        rewrite <- Hn in *. rewrite firstn_app, Nat.sub_diag. cbn [firstn].
        rewrite app_nil_r, HW. f_equal. lia.
      * assert (Hlt : (length P < Z.to_nat (sizeof_buffer b))%nat) by lia.
        rewrite firstn_all2 in HW by lia.
        rewrite Nat.min_r in HW by lia.
        rewrite firstn_all2 by (rewrite length_app; cbn; lia).
        rewrite Nat.min_r by lia.
        replace (length P + 1)%nat with (S (length P)) by lia.
        rewrite frame_bytes_succ, <- HW. f_equal. f_equal.
        destruct (payload_byte_written e s b (length P) Hs Hm) as [Hl' _];
          [lia | exact Hdel |].
        rewrite Hl in Hl'. apply app_inv_head in Hl'.
        injection Hl' as ->.
        apply deref_frames; congruence.
    + (* nothing is written after the checksum *)
      exfalso.
      destruct Hph' as [P' _ _ Hle' Hrem' _ _ _ | P' _ _ _ Hrem' _ _
                       | P' Hn' _ _ _ _ _]; lia || congruence.
  - rewrite (written_since log0
               (skipn (length log0) (portLog (hottPort s)) ++ [EvSetMode MODE_RX])).
    + rewrite writes_app. cbn. rewrite app_nil_r. exact HW.
    + rewrite Hl.
      destruct Hph as [P _ _ _ _ _ _ Hlog | P _ _ _ _ _ Hlog
                      | P ? _ _ _ _ _]; [| |congruence];
        rewrite Hlog, skipn_length_app, <- app_assoc; reflexivity.
Qed.

(** *** The bytes of a send *)

Lemma deref_frame_byte s b k : deref s b k = frame_byte s b k.
Proof. destruct b; reflexivity. Qed.

Lemma image_nth_seq (l : list Z) :
  map (fun k => nth k l 0) (seq 0 (length l)) = l.
Proof.
  apply (nth_ext _ _ 0 0).
  - now rewrite length_map, length_seq.
  - intros i Hi. rewrite length_map, length_seq in Hi.
    rewrite (nth_indep _ 0 (nth 0%nat l 0))
      by (now rewrite length_map, length_seq).
    rewrite (map_nth (fun k => nth k l 0) (seq 0 (length l)) 0%nat i).
    rewrite seq_nth by exact Hi. reflexivity.
Qed.

Lemma frame_bytes_whole s b :
  frame_bytes s b (length (frame_image s b)) = frame_image s b.
Proof.
  unfold frame_bytes.
  rewrite <- (image_nth_seq (frame_image s b)) at 2.
  apply map_ext. intros k. apply deref_frame_byte.
Qed.

Lemma send_reads_not_sending b k es s :
  hottIsSending s = false -> send_reads b k es s = [].
Proof. intros H. destruct es; cbn; [reflexivity | now rewrite H]. Qed.

(** The payload bytes still to come, [P] being the bytes of the send
    written so far: the port receives, in order, what stands in the frame
    at offsets [length P], [length P + 1], ... when each of them is written. *)
Lemma send_reads_payload b log0 es s P :
  sizes_fit -> phase b log0 s -> hottIsSending s = true ->
  portLog (hottPort s) = log0 ++ map EvWrite P ->
  let m := (Z.to_nat (sizeof_buffer b) - length P)%nat in
  firstn m (trace_bytes (send_trace es s))
  = firstn m (send_reads b (length P) es s).
Proof.
  intros Hfit. revert s P.
  induction es as [|e es IH]; intros s P Hph Hs Hlog m; [reflexivity|].
  cbn [send_trace send_reads]. rewrite Hs.
  unfold trace_bytes. cbn [map concat snd]. fold (trace_bytes (send_trace es (tick e s))).
  pose proof (phase_step b log0 e s Hfit Hph Hs) as Hph'.
  specialize (Hfit b) as Hb.
  destruct (sending_call b log0 e s Hfit Hph Hs)
    as [(_ & _ & Hl & Hs' & _)
       | (Hdel & _ & [(c & Hl & Hs' & _) | (Hl & Hs' & _)])];
    cbv zeta in *.
  - rewrite (written_same _ _ Hl). cbn [app].
    apply (IH (tick e s) P Hph' Hs'). congruence.
  - rewrite (written_event _ _ _ Hl). cbn [writes app].
    assert (Hlog' : portLog (hottPort (tick e s))
                    = log0 ++ map EvWrite (P ++ [c])).
    { rewrite Hl, Hlog, map_app, <- app_assoc. reflexivity. }
    pose proof (IH (tick e s) (P ++ [c]) Hph' Hs' Hlog') as IH'.
    cbv zeta in IH'. rewrite length_app in IH'. cbn [length] in IH'.
    replace (length P + 1)%nat with (S (length P)) in IH' by lia.
    subst m.
    destruct (Z.to_nat (sizeof_buffer b) - length P)%nat as [|m'] eqn:Em;
      [reflexivity|].
    replace (Z.to_nat (sizeof_buffer b) - S (length P))%nat with m' in IH'
      by lia.
    cbn [firstn]. rewrite IH'. f_equal.
    (* the byte written is the byte of the frame at this offset *)
    destruct Hph as [P0 _ Hm _ Hrem _ _ Hlog0 | P0 _ _ Hlen _ _ Hlog0
                    | P0 ? _ _ _ _ _]; [| |congruence].
    + assert (HP : P0 = P).
      { rewrite Hlog in Hlog0. apply app_inv_head in Hlog0.
        apply (f_equal writes) in Hlog0.
        rewrite !writes_map_EvWrite in Hlog0. congruence. }
      subst P0.
      destruct (payload_byte_written e s b (length P) Hs Hm) as [Hl' _];
        [lia | exact Hdel |].
      rewrite Hl in Hl'. apply app_inv_head in Hl'. injection Hl' as ->.
      apply deref_frame_byte.
    + exfalso.
      assert (HP : P = P0 ++ [checksum P0]).
      { rewrite Hlog in Hlog0. apply app_inv_head in Hlog0.
        apply (f_equal writes) in Hlog0.
        rewrite !writes_map_EvWrite in Hlog0. exact Hlog0. }
      rewrite HP, length_app in Em. cbn [length] in Em. lia.
  - rewrite (written_event _ _ _ Hl). cbn [writes app].
    rewrite (send_trace_not_sending es _ Hs'),
      (send_reads_not_sending b _ es _ Hs').
    reflexivity.
Qed.

(** C6: for a send started by a call made while nothing was pending, and
    the calls [es] that follow until the send is over: every call writes at
    most one byte, each writing call comes at least [HOTT_TX_DELAY_US] after
    the previous transmitter action, never more than the frame size plus one
    bytes are written; when the send is over exactly the frame's [N] payload
    bytes and then their checksum have been written, the cursor is null, the
    port is back in receive mode and its receive queue is empty; and calls
    that are at least the delay apart do finish the send, [N + 2] of them
    being enough.  The payload bytes are the bytes of the frame: the first
    [N] bytes written are, in order, what stands at offsets 0, 1, ...,
    [N - 1] of the requested frame in the call that writes each of them; so
    when no refresh falls into the send, a finished send has written the
    memory image of the frame as it stood at the start, and then its
    checksum. *)
Theorem send_writes_frame_then_checksum (e0 : env) (s : state)
    (es : list env) :
  sizes_fit -> idle s -> hottIsSending (tick e0 s) = true ->
  let s1 := tick e0 s in
  let s' := run_send es s1 in
  let tr := send_trace es s1 in
  exists b tail,
    hottMsg s1 = Some (b, 0%nat) /\
    portLog (hottPort s')
    = portLog (hottPort s) ++ [EvSetMode MODE_TX]
        ++ map EvWrite (trace_bytes tr) ++ tail /\
    Z.of_nat (length (trace_bytes tr)) <= sizeof_buffer b + 1 /\
    Forall (fun c => (length (snd c) <= 1)%nat) tr /\
    spaced (micros e0) (writing_times tr) /\
    (hottIsSending s' = false ->
     (exists P, trace_bytes tr = P ++ [checksum P] /\
                Z.of_nat (length P) = sizeof_buffer b) /\
     tail = [EvSetMode MODE_RX] /\ hottMsg s' = None /\
     mode (hottPort s') = MODE_RX /\ rxBuffer (hottPort s') = []) /\
    (spaced (micros e0) (map micros es) ->
     sizeof_buffer b + 2 <= Z.of_nat (length es) ->
     hottIsSending s' = false) /\
    firstn (Z.to_nat (sizeof_buffer b)) (trace_bytes tr)
    = firstn (Z.to_nat (sizeof_buffer b)) (send_reads b 0 es s1) /\
    (no_refresh_due (lastMessagesPreparedAt s1) es ->
     hottIsSending s' = false ->
     length (frame_image s1 b) = Z.to_nat (sizeof_buffer b) ->
     trace_bytes tr
     = frame_image s1 b ++ [checksum (frame_image s1 b)]).
Proof.
  intros Hfit Hidle Hstart s1 s' tr.
  destruct (idle_call e0 s Hfit Hidle)
    as [[[Hn _] _] | (b & Hph & Hs1 & Hm1 & _ & Ht1 & Hl1)];
    cbv zeta in *; [congruence|].
  fold s1 in Hph, Hs1, Hm1, Ht1, Hl1.
  pose proof (phase_run_send b _ es _ Hfit Hph) as Hph'. fold s' in Hph'.
  destruct (phase_written b _ _ Hph') as (W & tail & L & T & C & K & D).
  destruct (send_trace_paced b _ es s1 Hfit Hph) as (T1 & T2 & T3).
  fold s' tr in T1, T2, T3. rewrite Hl1 in T3. rewrite Ht1 in T2.
  assert (E : W = trace_bytes tr /\
              tail = (if hottIsSending s1 && negb (hottIsSending s')
                      then [EvSetMode MODE_RX] else [])).
  { rewrite L in T3. apply app_inv_head in T3.
    apply (same_writes _ _ _ _ T3).
    - destruct T; subst tail; reflexivity.
    - destruct (_ && _); reflexivity. }
  destruct E as [EW Etail]. rewrite <- EW.
  exists b, tail.
  split; [exact Hm1|].
  split; [rewrite <- app_assoc in L; exact L|].
  split; [exact C|]. split; [exact T1|]. split; [exact T2|].
  split.
  { intros H. destruct (D H) as (D1 & D2 & D3 & D4 & D5).
    repeat split; auto. }
  split.
  { intros Hsp Hlen.
    apply (send_completes b _ es s1 Hfit Hph); [rewrite Ht1; exact Hsp|].
    rewrite Hs1. specialize (Hfit b).
    destruct Hph as [P _ Hm _ Hrem _ _ _ | P _ _ _ Hrem _ _ | P ? _ _ _ _ _];
      [| rewrite Hrem; lia | congruence].
    rewrite Hm1 in Hm. injection Hm as Hm. rewrite Hrem, <- Hm. cbn. lia. }
  split.
  { rewrite EW.
    pose proof (send_reads_payload b _ es s1 [] Hfit Hph Hs1) as HR.
    cbn [map length] in HR. rewrite app_nil_r, Nat.sub_0_r in HR.
    apply HR. exact Hl1. }
  intros Hdue Hend Himg.
  destruct (D Hend) as (D1 & _). destruct (K D1) as (P & HP & HlenP).
  set (log0 := portLog (hottPort s) ++ [EvSetMode MODE_TX]) in *.
  pose proof (unrefreshed_send_inv s1 b log0 es s1 Hfit Hph
                eq_refl eq_refl eq_refl Hdue) as HW.
  cbv zeta in HW. fold s' in HW.
  assert (H0 : firstn (Z.to_nat (sizeof_buffer b))
                 (writes (skipn (length log0) (portLog (hottPort s1))))
               = frame_bytes s1 b
                   (Nat.min (Z.to_nat (sizeof_buffer b))
                      (length (writes (skipn (length log0)
                                         (portLog (hottPort s1))))))).
  { rewrite Hl1, skipn_all. cbn. rewrite firstn_nil, Nat.min_0_r. reflexivity. }
  specialize (HW H0). clear H0.
  rewrite (written_since log0 _ _ L) in HW.
  assert (Htl : writes tail = []) by (destruct T; subst tail; reflexivity).
  rewrite writes_app, writes_map_EvWrite, Htl, app_nil_r in HW.
  rewrite HP in HW. rewrite length_app in HW. cbn [length] in HW.
  assert (Hn : length P = Z.to_nat (sizeof_buffer b)) by lia.
  rewrite <- Hn in HW.
  rewrite firstn_app, Nat.sub_diag, firstn_all in HW. cbn [firstn] in HW.
  rewrite app_nil_r, Nat.min_l in HW by lia.
  rewrite Hn, <- Himg, frame_bytes_whole in HW.
  rewrite HP, HW. reflexivity.
Qed.

(** X16: when no refresh falls between the start of a send and its end,
    the bytes written are exactly the bytes of the requested frame as it
    stood at the start, in order, followed by their sum modulo 256, between
    the switch to transmit mode and the switch back. *)
Theorem unrefreshed_send_transmits_the_frame (e0 : env) (s : state)
    (es : list env) :
  sizes_fit -> idle s -> hottIsSending (tick e0 s) = true ->
  no_refresh_due (lastMessagesPreparedAt (tick e0 s)) es ->
  hottIsSending (run_send es (tick e0 s)) = false ->
  exists b,
    hottMsg (tick e0 s) = Some (b, 0%nat) /\
    let frame :=
      frame_bytes (tick e0 s) b (Z.to_nat (sizeof_buffer b)) in
    portLog (hottPort (run_send es (tick e0 s)))
    = portLog (hottPort s) ++ [EvSetMode MODE_TX]
        ++ map EvWrite (frame ++ [checksum frame]) ++ [EvSetMode MODE_RX].
Proof.
  intros Hfit Hidle Hstart Hdue Hend.
  destruct (idle_call e0 s Hfit Hidle)
    as [[[Hn _] _] | (b & Hph & _ & Hm1 & _ & _ & Hl1)];
    cbv zeta in *; [congruence|].
  exists b. split; [exact Hm1|]. cbv zeta.
  set (t0 := tick e0 s) in *.
  set (log0 := portLog (hottPort s) ++ [EvSetMode MODE_TX]) in *.
  pose proof (unrefreshed_send_inv t0 b log0 es t0 Hfit Hph
                eq_refl eq_refl eq_refl Hdue) as HW.
  cbv zeta in HW.
  assert (H0 : firstn (Z.to_nat (sizeof_buffer b))
                 (writes (skipn (length log0) (portLog (hottPort t0))))
               = frame_bytes t0 b
                   (Nat.min (Z.to_nat (sizeof_buffer b))
                      (length (writes (skipn (length log0)
                                         (portLog (hottPort t0))))))).
  { rewrite Hl1, skipn_all. cbn. rewrite firstn_nil, Nat.min_0_r. reflexivity. }
  specialize (HW H0). clear H0.
  pose proof (phase_run_send b log0 es t0 Hfit Hph) as Hph'.
  destruct Hph' as [P ? _ _ _ _ _ _ | P ? _ _ _ _ _
                   | P _ _ Hlen _ _ Hlog]; [congruence | congruence |].
  rewrite (written_since log0 _ _ Hlog) in HW.
  rewrite writes_app, writes_map_EvWrite in HW. cbn [writes] in HW.
  rewrite app_nil_r, length_app in HW. cbn [length] in HW.
  assert (Hn : length P = Z.to_nat (sizeof_buffer b)) by lia.
  rewrite <- Hn in *.
  rewrite firstn_app, Nat.sub_diag, firstn_all in HW. cbn [firstn] in HW.
  rewrite app_nil_r, Nat.min_l in HW by lia.
  rewrite <- HW, Hlog. unfold log0. rewrite <- app_assoc. reflexivity.
Qed.

(** *** The 32-bit clock *)

Lemma elapsed_mod t0 d :
  0 <= t0 < 4294967296 -> 0 <= d < 4294967296 ->
  to_uint32 (to_uint32 (t0 + d) - t0) = d.
Proof. unfold to_uint32. div_lia. Qed.

(** X17: the settle time and the refresh interval are measured correctly
    across a roll-over of the 32-bit microsecond clock: [d] microseconds
    after the reference time, at clock value [(t0 + d) mod 2^32], a refresh
    is due exactly when [d] has reached 200000, and an armed window holding
    a request is left alone when [d] is below 4000 and emptied and reset
    when it is not. *)
Theorem timers_survive_clock_rollover (e : env) (s : state) (r a t0 d : Z) :
  0 <= t0 < 4294967296 -> 0 <= d < 4294967296 ->
  lastMessagesPreparedAt s = t0 -> lastHoTTRequestCheckAt s = t0 ->
  rxBuffer (hottPort s) = [r; a] -> lookingForRequest s = false ->
  let now := to_uint32 (t0 + d) in
  shouldPrepareHoTTMessages now s
  = (HOTT_MESSAGE_PREPARATION_FREQUENCY_5_HZ <=? d) /\
  (d < HOTT_RX_SCHEDULE -> hottCheckSerialData e now s = s) /\
  (HOTT_RX_SCHEDULE <= d ->
   rxBuffer (hottPort (hottCheckSerialData e now s)) = [] /\
   lookingForRequest (hottCheckSerialData e now s) = true).
Proof.
  intros Ht0 Hd HL HC Hrx Hl now. subst now.
  split; [unfold shouldPrepareHoTTMessages; rewrite HL, elapsed_mod by lia;
          reflexivity|].
  split.
  - intros Hlt. unfold hottCheckSerialData.
    rewrite (two_bytes_waiting s r a Hrx), Hl, HC, elapsed_mod by lia.
    apply Z.leb_gt in Hlt. rewrite Hlt. reflexivity.
  - intros Hge.
    rewrite (hottCheckSerialData_consume e _ s r a Hrx Hl)
      by (rewrite HC, elapsed_mod by lia; exact Hge).
    cbv zeta. destruct (r =? _); [|cbn; auto].
    match goal with
    | |- context [processBinaryModeRequest e a ?x] =>
        destruct (processBinaryModeRequest_frame e a x)
          as (_ & _ & F3 & _ & _ & _ & _ & F8 & _)
    end.
    cbv zeta in *. rewrite F3, F8. cbn. auto.
Qed.

End ExecutionProperties.

(** ** Port acquisition and release *)

(** X18: acquiring a port that is already open saves its mode and baud
    rate, puts it at 19200 baud in receive mode and registers the telemetry
    function; releasing it afterwards puts back the saved mode and baud rate
    and unregisters the function, the received bytes being left alone.  A
    port opened for the purpose is at 19200 baud in receive mode after
    acquisition and still after release.  Releasing without a port does not
    go through. *)
Theorem configure_then_free_restores_port (p : openPort) (a : arbiter) :
  (exists p1 p2,
     arbiterPort (configureHoTTTelemetryPort (Some p) a) = Some p1 /\
     baudRate p1 = getHoTTTelemetryProviderBaudRate /\
     mode (line p1) = MODE_RX /\ telemetryFunction p1 = true /\
     option_map arbiterPort
       (freeHoTTTelemetryPort (configureHoTTTelemetryPort (Some p) a))
     = Some (Some p2) /\
     mode (line p2) = mode (line p) /\ baudRate p2 = baudRate p /\
     telemetryFunction p2 = false /\
     rxBuffer (line p2) = rxBuffer (line p)) /\
  (exists p1 p2,
     arbiterPort (configureHoTTTelemetryPort None a) = Some p1 /\
     baudRate p1 = 19200 /\ mode (line p1) = MODE_RX /\
     option_map arbiterPort
       (freeHoTTTelemetryPort (configureHoTTTelemetryPort None a))
     = Some (Some p2) /\
     baudRate p2 = 19200 /\ mode (line p2) = MODE_RX) /\
  (arbiterPort a = None -> freeHoTTTelemetryPort a = None).
Proof.
  split; [|split].
  - eexists _, _. cbn. repeat split.
  - eexists _, _. cbn. repeat split.
  - intros H. unfold freeHoTTTelemetryPort. rewrite H. reflexivity.
Qed.


(** * Evaluation on the concrete header *)

#[local] Existing Instance sample_hott_h.

Lemma sample_sizes_fit : sizes_fit.
Proof. intros []; cbn; lia. Qed.

(** The whole Battery/EAM send of the initial frame, 46 calls 3000
    microseconds apart: 44 frame bytes, then their sum modulo 256. *)
Example sample_send_log :
  portLog (hottPort (run_send (sample_calls 46 7000 3000) sample_sending))
  = [EvSetMode MODE_TX]
      ++ map EvWrite (sample_eam_image initialiseEAMMessage ++ [103])
      ++ [EvSetMode MODE_RX].
Proof. vm_compute. reflexivity. Qed.

Lemma addGPSCoordinates_packs_witness :
  is_int32 123456789 /\ is_int32 (-1220000000) /\
  let m' := addGPSCoordinates GPS.zero 123456789 (-1220000000) in
  packs_coordinate 123456789 (m' GPS.pos_NS)
    (m' GPS.pos_NS_dm_L) (m' GPS.pos_NS_dm_H)
    (m' GPS.pos_NS_sec_L) (m' GPS.pos_NS_sec_H) /\
  packs_coordinate (-1220000000) (m' GPS.pos_EW)
    (m' GPS.pos_EW_dm_L) (m' GPS.pos_EW_dm_H)
    (m' GPS.pos_EW_sec_L) (m' GPS.pos_EW_sec_H).
Proof.
  assert (H1 : is_int32 123456789) by (unfold is_int32; lia).
  assert (H2 : is_int32 (-1220000000)) by (unfold is_int32; lia).
  split; [exact H1|]. split; [exact H2|].
  exact (addGPSCoordinates_packs GPS.zero 123456789 (-1220000000) H1 H2).
Defined.

(** C5, as stated, fails: a southern latitude is not packed as its
    magnitude.  For -12.3456789 degrees the flag is set and the bytes are
    those of the 16-bit two's complements of -1220 and -7407, not the
    bytes of 1220 and 7407 that the northern latitude of the same magnitude
    gets. *)
Lemma addGPSCoordinates_sign_in_packed_value :
  let south := addGPSCoordinates GPS.zero (-123456789) 0 in
  let north := addGPSCoordinates GPS.zero 123456789 0 in
  south GPS.pos_NS = 1 /\
  [south GPS.pos_NS_dm_L; south GPS.pos_NS_dm_H;
   south GPS.pos_NS_sec_L; south GPS.pos_NS_sec_H] = [60; 251; 17; 227] /\
  [north GPS.pos_NS_dm_L; north GPS.pos_NS_dm_H;
   north GPS.pos_NS_sec_L; north GPS.pos_NS_sec_H] = [196; 4; 239; 28] /\
  south GPS.pos_NS_dm_L + 256 * south GPS.pos_NS_dm_H <> 1220.
Proof. vm_compute. repeat split; discriminate. Qed.

Lemma hottPrepareGPSResponse_speed_witness :
  f_GPS_FIX (sample_fix_env 250) = true /\
  is_uint16 (GPS_speed (sample_fix_env 250)) /\
  let m' := hottPrepareGPSResponse (sample_fix_env 250) GPS.zero in
  m' GPS.gps_speed_L = 72 /\ m' GPS.gps_speed_H = 0.
Proof.
  assert (H1 : f_GPS_FIX (sample_fix_env 250) = true) by reflexivity.
  assert (H2 : is_uint16 (GPS_speed (sample_fix_env 250)))
    by (unfold is_uint16; cbn; lia).
  split; [exact H1|]. split; [exact H2|].
  exact (proj2 (proj2 (proj2
    (hottPrepareGPSResponse_speed (sample_fix_env 250) GPS.zero H1 H2)))
    eq_refl).
Defined.

Lemma hottPrepareGPSResponse_no_fix_witness :
  f_GPS_FIX (sample_env 0 []) = false /\
  let m' := hottPrepareGPSResponse (sample_env 0 []) initialiseGPSMessage in
  m' GPS.gps_satelites = to_uint8 (GPS_numSat (sample_env 0 [])) /\
  m' GPS.gps_fix_char = GPS_FIX_CHAR_NONE /\
  forall f : GPS.field,
    f <> GPS.gps_satelites -> f <> GPS.gps_fix_char ->
    m' f = initialiseGPSMessage f.
Proof.
  split; [reflexivity|].
  exact (hottPrepareGPSResponse_no_fix (sample_env 0 []) initialiseGPSMessage
           eq_refl).
Defined.

Lemma sample_armed_idle : idle (sample_armed 142).
Proof. split; reflexivity. Qed.

Lemma checksum_is_sum_of_written_bytes_witness :
  sizes_fit /\ idle (sample_armed 142) /\
  hottIsSending (tick (sample_env 4000 []) (sample_armed 142)) = true /\
  hottMsgCrc (tick (sample_env 4000 []) (sample_armed 142)) = 0 /\
  hottIsSending
    (run_send (sample_calls 46 7000 3000)
       (tick (sample_env 4000 []) (sample_armed 142))) = false.
Proof.
  split; [exact sample_sizes_fit|]. split; [exact sample_armed_idle|].
  split; [reflexivity|].
  split; [|vm_compute; reflexivity].
  exact (proj1 (checksum_is_sum_of_written_bytes (sample_env 4000 [])
                  (sample_armed 142) (sample_calls 46 7000 3000)
                  sample_sizes_fit sample_armed_idle eq_refl)).
Defined.

Lemma sample_no_refresh_due :
  no_refresh_due
    (lastMessagesPreparedAt (tick (sample_env 4000 []) (sample_armed 142)))
    (sample_calls 46 7000 3000).
Proof.
  unfold no_refresh_due. apply Forall_forall. intros e He.
  assert (Hb : forall n t, In e (sample_calls n t 3000) ->
               t <= micros e < t + 3000 * Z.of_nat n
               /\ lastMessagesPreparedAt
                    (tick (sample_env 4000 []) (sample_armed 142)) = 0).
  { clear He. induction n as [|n IH]; intros t Hin; [destruct Hin|].
    destruct Hin as [<- | Hin]; [cbn [micros sample_env]; split; [lia | reflexivity]|].
    destruct (IH _ Hin) as [Hr H0]. split; [lia | exact H0]. }
  destruct (Hb _ _ He) as [Hr H0]. rewrite H0.
  unfold to_uint32, HOTT_MESSAGE_PREPARATION_FREQUENCY_5_HZ.
  cbn in Hr. change (1000 * 1000 / 5) with 200000. div_lia.
Qed.

Lemma send_writes_frame_then_checksum_witness :
  sizes_fit /\ idle (sample_armed 142) /\
  hottIsSending (tick (sample_env 4000 []) (sample_armed 142)) = true /\
  spaced 4000 (map micros (sample_calls 46 7000 3000)) /\
  (exists b tail,
     hottMsg (tick (sample_env 4000 []) (sample_armed 142)) = Some (b, 0%nat) /\
     portLog (hottPort (run_send (sample_calls 46 7000 3000)
                          (tick (sample_env 4000 []) (sample_armed 142))))
     = portLog (hottPort (sample_armed 142)) ++ [EvSetMode MODE_TX]
         ++ map EvWrite
              (trace_bytes (send_trace (sample_calls 46 7000 3000)
                              (tick (sample_env 4000 []) (sample_armed 142))))
         ++ tail) /\
  trace_bytes (send_trace (sample_calls 46 7000 3000)
                 (tick (sample_env 4000 []) (sample_armed 142)))
  = frame_image (tick (sample_env 4000 []) (sample_armed 142)) EAMMessage
      ++ [checksum
            (frame_image (tick (sample_env 4000 []) (sample_armed 142))
               EAMMessage)].
Proof.
  split; [exact sample_sizes_fit|]. split; [exact sample_armed_idle|].
  split; [reflexivity|].
  split; [vm_compute; repeat split; discriminate|].
  destruct (send_writes_frame_then_checksum (sample_env 4000 [])
              (sample_armed 142) (sample_calls 46 7000 3000)
              sample_sizes_fit sample_armed_idle eq_refl)
    as (b & tail & H1 & H2 & _ & _ & _ & _ & _ & _ & H9).
  split; [exists b, tail; split; [exact H1 | exact H2]|].
  assert (E : hottMsg (tick (sample_env 4000 []) (sample_armed 142))
              = Some (EAMMessage, 0%nat)) by reflexivity.
  rewrite E in H1. injection H1 as <-.
  apply H9;
    [exact sample_no_refresh_due | vm_compute; reflexivity | reflexivity].
Defined.

(** The payload of the sample send is the 44-byte image of the initial
    Battery/EAM frame, and the byte after it is 103. *)
Example sample_send_payload :
  frame_image (tick (sample_env 4000 []) (sample_armed 142)) EAMMessage
  = sample_eam_image initialiseEAMMessage /\
  checksum (sample_eam_image initialiseEAMMessage) = 103.
Proof. vm_compute. split; reflexivity. Qed.

Lemma one_send_in_flight_witness :
  hottIsSending sample_sending = true /\
  hottSendResponse GPSMessage sizeof_HOTT_GPS_MSG_t sample_sending
  = sample_sending /\
  shouldCheckForHoTTRequest sample_sending = false /\
  rxBuffer (hottPort
    (run_send [sample_env 7000 [128; 138]; sample_env 10000 [128; 138]]
       sample_sending))
  = rxBuffer (hottPort sample_sending)
      ++ concat (map wire_in
           [sample_env 7000 [128; 138]; sample_env 10000 [128; 138]]).
Proof.
  split; [reflexivity|].
  destruct (one_send_in_flight
              [sample_env 7000 [128; 138]; sample_env 10000 [128; 138]]
              sample_sending GPSMessage sizeof_HOTT_GPS_MSG_t eq_refl)
    as (H1 & H2 & H3).
  split; [exact H1|]. split; [exact H2|].
  assert (H : hottIsSending
                (run_send
                   [sample_env 7000 [128; 138]; sample_env 10000 [128; 138]]
                   sample_sending) = true) by (vm_compute; reflexivity).
  exact (proj1 (proj2 (proj2 (H3 H)))).
Defined.

(** Two requests for the GPS frame injected during the Battery/EAM send:
    after both calls the four bytes still wait and the cursor is two bytes
    into the Battery/EAM frame. *)
Example sample_requests_during_send :
  let s := run_send [sample_env 7000 [128; 138]; sample_env 10000 [128; 138]]
             sample_sending in
  hottIsSending s = true /\
  rxBuffer (hottPort s) = [128; 138; 128; 138] /\
  hottMsg s = Some (EAMMessage, 2%nat).
Proof. vm_compute. repeat split. Qed.

Lemma refresh_is_unconditional_witness :
  HOTT_MESSAGE_PREPARATION_FREQUENCY_5_HZ
    <= to_uint32 (micros (sample_fix_env 0)
                  - lastMessagesPreparedAt
                      (set_lastMessagesPreparedAt (-200000) sample_sending)) /\
  hottIsSending (set_lastMessagesPreparedAt (-200000) sample_sending) = true /\
  lastMessagesPreparedAt
    (tick (sample_fix_env 0)
       (set_lastMessagesPreparedAt (-200000) sample_sending)) = 0.
Proof.
  assert (H : HOTT_MESSAGE_PREPARATION_FREQUENCY_5_HZ
              <= to_uint32 (micros (sample_fix_env 0)
                   - lastMessagesPreparedAt
                       (set_lastMessagesPreparedAt (-200000) sample_sending)))
    by (vm_compute; discriminate).
  split; [exact H|]. split; [reflexivity|].
  exact (proj2 (proj2 (proj2
    (refresh_is_unconditional (sample_fix_env 0)
       (set_lastMessagesPreparedAt (-200000) sample_sending) H)))).
Defined.

Lemma request_window_witness :
  rxBuffer (hottPort (sample_armed 142)) = [128; 142] /\
  HOTT_RX_SCHEDULE = 4000 /\
  hottCheckSerialData (sample_env 3999 []) 3999 (sample_armed 142)
  = sample_armed 142.
Proof.
  split; [reflexivity|].
  destruct (request_window (sample_env 3999 []) 3999 (sample_armed 142)
              128 142 eq_refl) as (H1 & _ & H3 & _).
  split; [exact H1|].
  apply H3; [reflexivity | vm_compute; reflexivity].
Defined.

Lemma consumed_request_dispatch_witness :
  hottIsSending (sample_armed 142) = false /\
  rxBuffer (hottPort (sample_armed 142)) = [128; 142] /\
  lookingForRequest (sample_armed 142) = false /\
  HOTT_RX_SCHEDULE
    <= to_uint32 (4000 - lastHoTTRequestCheckAt (sample_armed 142)) /\
  hottMsg (hottCheckSerialData (sample_env 4000 []) 4000 (sample_armed 142))
  = Some (EAMMessage, 0%nat).
Proof.
  assert (H : HOTT_RX_SCHEDULE
              <= to_uint32 (4000 - lastHoTTRequestCheckAt (sample_armed 142)))
    by (vm_compute; discriminate).
  split; [reflexivity|]. split; [reflexivity|]. split; [reflexivity|].
  split; [exact H|].
  destruct (consumed_request_dispatch (sample_env 4000 []) 4000
              (sample_armed 142) 128 142 eq_refl eq_refl eq_refl H)
    as (_ & _ & H3 & _).
  exact (proj1 (H3 eq_refl eq_refl)).
Defined.

(** C3, as stated, fails: a request for the GPS address on a craft whose
    GPS sensor is not enabled is consumed and schedules no send. *)
Lemma gps_request_without_gps_sensor :
  let s := sample_armed 138 in
  let s' := hottCheckSerialData (sample_no_gps_env 4000) 4000 s in
  rxBuffer (hottPort s) = [HOTT_BINARY_MODE_REQUEST_ID; 138] /\
  rxBuffer (hottPort s') = [] /\
  hottMsg s' = None /\
  hottMsg s' <> Some (GPSMessage, 0%nat) /\
  hottIsSending (tick (sample_no_gps_env 4000) s) = false.
Proof. vm_compute. repeat split; discriminate. Qed.

Lemma noise_is_flushed_witness :
  2 < to_uint8 (serialTotalBytesWaiting
                  (hottPort (arrived (sample_env 0 [1; 2; 3]) initial_state))) /\
  rxBuffer (hottPort
              (hottCheckSerialData (sample_env 0 []) 0
                 (arrived (sample_env 0 [1; 2; 3]) initial_state))) = [].
Proof.
  assert (H : 2 < to_uint8 (serialTotalBytesWaiting
                (hottPort (arrived (sample_env 0 [1; 2; 3]) initial_state))))
    by (vm_compute; reflexivity).
  split; [exact H|].
  destruct (noise_is_flushed (sample_env 0 []) 0
              (arrived (sample_env 0 [1; 2; 3]) initial_state)) as (H1 & _).
  exact (proj1 (proj2 (H1 H))).
Defined.

(** C4, as stated, fails: a single waiting byte is not discarded.  The
    first call after start-up finds one byte waiting; the detector returns
    at once and the byte is still waiting after the call. *)
Lemma one_waiting_byte_is_kept :
  let s := arrived (sample_env 0 [7]) initial_state in
  let s' := hottCheckSerialData (sample_env 0 [7]) 0 s in
  hottIsSending s = false /\
  serialTotalBytesWaiting (hottPort s) = 1 /\
  rxBuffer (hottPort s') = [7] /\ rxBuffer (hottPort s') <> [] /\
  rxBuffer (hottPort (tick (sample_env 0 [7]) initial_state)) = [7].
Proof. vm_compute. repeat split; discriminate. Qed.

(** ** Further properties *)

Lemma altitude_encoding_witness :
  f_GPS_FIX sample_flight_env = true /\
  is_uint16 (GPS_altitude sample_flight_env) /\
  0 <= HOTT_GPS_ALTITUDE_OFFSET /\
  GPS_altitude sample_flight_env / 10 + HOTT_GPS_ALTITUDE_OFFSET <= 65535 /\
  let m' := hottPrepareGPSResponse sample_flight_env GPS.zero in
  m' GPS.altitude_L + 256 * m' GPS.altitude_H = 623.
Proof.
  assert (H1 : f_GPS_FIX sample_flight_env = true) by reflexivity.
  assert (H2 : is_uint16 (GPS_altitude sample_flight_env))
    by (unfold is_uint16; cbn; lia).
  assert (H3 : 0 <= HOTT_GPS_ALTITUDE_OFFSET) by (cbn; lia).
  assert (H4 : GPS_altitude sample_flight_env / 10 + HOTT_GPS_ALTITUDE_OFFSET
               <= 65535) by (vm_compute; discriminate).
  repeat (split; [assumption|]).
  exact (proj2 (proj2
    (altitude_encoding sample_flight_env GPS.zero H1 H2 H3 H4))).
Defined.

Lemma home_distance_encoding_witness :
  f_GPS_FIX sample_flight_env = true /\
  is_uint16 (GPS_distanceToHome sample_flight_env) /\
  let m' := hottPrepareGPSResponse sample_flight_env GPS.zero in
  m' GPS.home_distance_L + 256 * m' GPS.home_distance_H = 1500 /\
  m' GPS.home_direction = 166.
Proof.
  assert (H1 : f_GPS_FIX sample_flight_env = true) by reflexivity.
  assert (H2 : is_uint16 (GPS_distanceToHome sample_flight_env))
    by (unfold is_uint16; cbn; lia).
  repeat (split; [assumption|]).
  exact (proj2 (proj2
    (home_distance_encoding sample_flight_env GPS.zero H1 H2))).
Defined.

Lemma hottPrepareEAMResponse_fields_witness :
  is_uint16 (vbat sample_flight_env) /\
  let m' := hottPrepareEAMResponse sample_flight_env initialiseEAMMessage in
  m' EAM.main_voltage_L + 256 * m' EAM.main_voltage_H = 126.
Proof.
  assert (H1 : is_uint16 (vbat sample_flight_env))
    by (unfold is_uint16; cbn; lia).
  split; [exact H1|].
  exact (proj1 (proj2 (proj2
    (hottPrepareEAMResponse_fields sample_flight_env initialiseEAMMessage H1)))).
Defined.

Lemma coordinate_precision_witness :
  is_int32 123456789 /\ is_int32 1220000000 /\
  0 <= 123456789 /\ 0 <= 1220000000 /\
  let m' := addGPSCoordinates GPS.zero 123456789 1220000000 in
  let ns_dm := m' GPS.pos_NS_dm_L + 256 * m' GPS.pos_NS_dm_H in
  let ns_sec := m' GPS.pos_NS_sec_L + 256 * m' GPS.pos_NS_sec_H in
  ns_dm mod 100 < 60 /\ 0 <= ns_sec <= 9999 /\
  0 <= 6 * 123456789
       - (ns_dm / 100 * 60000000 + ns_dm mod 100 * 1000000 + ns_sec * 100)
    < 100.
Proof.
  assert (H1 : is_int32 123456789) by (unfold is_int32; lia).
  assert (H2 : is_int32 1220000000) by (unfold is_int32; lia).
  assert (H3 : 0 <= 123456789) by lia.
  assert (H4 : 0 <= 1220000000) by lia.
  repeat (split; [assumption|]).
  exact (proj1
    (coordinate_precision GPS.zero 123456789 1220000000 H1 H2 H3 H4)).
Defined.

Lemma addGPSCoordinates_writes_positions_only_witness :
  ~ In GPS.gps_speed_L
      [GPS.pos_NS; GPS.pos_NS_dm_L; GPS.pos_NS_dm_H;
       GPS.pos_NS_sec_L; GPS.pos_NS_sec_H;
       GPS.pos_EW; GPS.pos_EW_dm_L; GPS.pos_EW_dm_H;
       GPS.pos_EW_sec_L; GPS.pos_EW_sec_H] /\
  addGPSCoordinates initialiseGPSMessage 123456789 1220000000 GPS.gps_speed_L
  = initialiseGPSMessage GPS.gps_speed_L.
Proof.
  assert (H : ~ In GPS.gps_speed_L
      [GPS.pos_NS; GPS.pos_NS_dm_L; GPS.pos_NS_dm_H;
       GPS.pos_NS_sec_L; GPS.pos_NS_sec_H;
       GPS.pos_EW; GPS.pos_EW_dm_L; GPS.pos_EW_dm_H;
       GPS.pos_EW_sec_L; GPS.pos_EW_sec_H])
    by (cbn; intuition discriminate).
  split; [exact H|].
  exact (addGPSCoordinates_writes_positions_only initialiseGPSMessage
           123456789 1220000000 GPS.gps_speed_L H).
Defined.

Lemma no_refresh_before_interval_witness :
  to_uint32 (micros (sample_env 199999 [])
             - lastMessagesPreparedAt initial_state)
    < HOTT_MESSAGE_PREPARATION_FREQUENCY_5_HZ /\
  hottGPSMessage (tick (sample_env 199999 []) initial_state)
  = hottGPSMessage initial_state.
Proof.
  assert (H : to_uint32 (micros (sample_env 199999 [])
                         - lastMessagesPreparedAt initial_state)
              < HOTT_MESSAGE_PREPARATION_FREQUENCY_5_HZ)
    by (vm_compute; reflexivity).
  split; [exact H|].
  exact (proj1 (no_refresh_before_interval (sample_env 199999 [])
                  initial_state H)).
Defined.

Lemma initial_frames_are_bytes :
  GPS_bytes (hottGPSMessage initial_state) /\
  EAM_bytes (hottEAMMessage initial_state).
Proof. split; intros f; destruct f; vm_compute; split; discriminate. Qed.

Lemma frames_stay_bytes_witness :
  GPS_bytes (hottGPSMessage initial_state) /\
  EAM_bytes (hottEAMMessage initial_state) /\
  GPS_bytes (hottGPSMessage (run (sample_calls 3 0 200000) initial_state)) /\
  EAM_bytes (hottEAMMessage (run (sample_calls 3 0 200000) initial_state)).
Proof.
  destruct initial_frames_are_bytes as [H1 H2].
  split; [exact H1|]. split; [exact H2|].
  exact (frames_stay_bytes (sample_calls 3 0 200000) initial_state H1 H2).
Defined.

Lemma cursor_and_mode_follow_sending_witness :
  sizes_fit /\
  let s := run sample_execution initial_state in
  (hottMsg s = None <-> hottIsSending s = false) /\
  (mode (hottPort s) = MODE_TX <-> hottIsSending s = true).
Proof.
  split; [exact sample_sizes_fit|].
  exact (cursor_and_mode_follow_sending sample_execution sample_sizes_fit).
Defined.

Lemma no_write_in_receive_mode_witness :
  sizes_fit /\
  port_discipline MODE_RX
    (portLog (hottPort (run sample_execution initial_state)))
  = Some (mode (hottPort (run sample_execution initial_state))).
Proof.
  split; [exact sample_sizes_fit|].
  exact (no_write_in_receive_mode sample_execution sample_sizes_fit).
Defined.

(** The sample execution is three bytes into the Battery/EAM frame. *)
Example sample_execution_log :
  portLog (hottPort (run sample_execution initial_state))
  = [EvSetMode MODE_TX; EvWrite 124; EvWrite 142; EvWrite 0].
Proof. vm_compute. reflexivity. Qed.

Lemma initial_state_idle : idle initial_state.
Proof. split; reflexivity. Qed.

Lemma request_is_answered_by_second_call_witness :
  idle initial_state /\
  rxBuffer (hottPort initial_state) = [] /\
  lookingForRequest initial_state = true /\
  wire_in (sample_env 0 [128; 142]) = [HOTT_BINARY_MODE_REQUEST_ID; 142] /\
  wire_in (sample_env 4000 []) = [] /\
  HOTT_RX_SCHEDULE
    <= to_uint32 (micros (sample_env 4000 [])
                  - micros (sample_env 0 [128; 142])) /\
  hottMsg (tick (sample_env 4000 [])
             (tick (sample_env 0 [128; 142]) initial_state))
  = Some (EAMMessage, 0%nat).
Proof.
  assert (H : HOTT_RX_SCHEDULE
              <= to_uint32 (micros (sample_env 4000 [])
                            - micros (sample_env 0 [128; 142])))
    by (vm_compute; discriminate).
  split; [exact initial_state_idle|].
  split; [reflexivity|]. split; [reflexivity|]. split; [reflexivity|].
  split; [reflexivity|]. split; [exact H|].
  exact (proj1 (proj2 (proj2
    (request_is_answered_by_second_call
       (sample_env 0 [128; 142]) (sample_env 4000 []) initial_state
       142 EAMMessage initial_state_idle eq_refl eq_refl eq_refl eq_refl H
       (or_introl (conj eq_refl eq_refl)))))).
Defined.

Lemma request_is_dropped_by_second_call_witness :
  idle initial_state /\
  rxBuffer (hottPort initial_state) = [] /\
  lookingForRequest initial_state = true /\
  wire_in (sample_env 0 [128; 7]) = [128; 7] /\
  wire_in (sample_env 4000 []) = [] /\
  HOTT_RX_SCHEDULE
    <= to_uint32 (micros (sample_env 4000 [])
                  - micros (sample_env 0 [128; 7])) /\
  (7 <> 138 /\ 7 <> 142) /\
  idle (tick (sample_env 4000 []) (tick (sample_env 0 [128; 7]) initial_state)).
Proof.
  assert (H : HOTT_RX_SCHEDULE
              <= to_uint32 (micros (sample_env 4000 [])
                            - micros (sample_env 0 [128; 7])))
    by (vm_compute; discriminate).
  assert (Ha : 7 <> 138 /\ 7 <> 142) by (split; discriminate).
  split; [exact initial_state_idle|].
  split; [reflexivity|]. split; [reflexivity|]. split; [reflexivity|].
  split; [reflexivity|]. split; [exact H|]. split; [exact Ha|].
  exact (proj1
    (request_is_dropped_by_second_call
       (sample_env 0 [128; 7]) (sample_env 4000 []) initial_state
       128 7 initial_state_idle eq_refl eq_refl eq_refl eq_refl H
       (or_intror (or_introl Ha)))).
Defined.

Lemma unrefreshed_send_transmits_the_frame_witness :
  sizes_fit /\ idle (sample_armed 142) /\
  hottIsSending (tick (sample_env 4000 []) (sample_armed 142)) = true /\
  no_refresh_due
    (lastMessagesPreparedAt (tick (sample_env 4000 []) (sample_armed 142)))
    (sample_calls 46 7000 3000) /\
  hottIsSending
    (run_send (sample_calls 46 7000 3000)
       (tick (sample_env 4000 []) (sample_armed 142))) = false /\
  exists b,
    hottMsg (tick (sample_env 4000 []) (sample_armed 142)) = Some (b, 0%nat).
Proof.
  assert (H : hottIsSending
                (run_send (sample_calls 46 7000 3000)
                   (tick (sample_env 4000 []) (sample_armed 142))) = false)
    by (vm_compute; reflexivity).
  split; [exact sample_sizes_fit|]. split; [exact sample_armed_idle|].
  split; [reflexivity|]. split; [exact sample_no_refresh_due|].
  split; [exact H|].
  destruct (unrefreshed_send_transmits_the_frame (sample_env 4000 [])
              (sample_armed 142) (sample_calls 46 7000 3000)
              sample_sizes_fit sample_armed_idle eq_refl
              sample_no_refresh_due H) as (b & Hb & _).
  exists b. exact Hb.
Defined.

Lemma timers_survive_clock_rollover_witness :
  0 <= 4294967000 < 4294967296 /\ 0 <= 5000 < 4294967296 /\
  lastMessagesPreparedAt sample_before_rollover = 4294967000 /\
  lastHoTTRequestCheckAt sample_before_rollover = 4294967000 /\
  rxBuffer (hottPort sample_before_rollover) = [128; 142] /\
  lookingForRequest sample_before_rollover = false /\
  to_uint32 (4294967000 + 5000) = 4704 /\
  rxBuffer (hottPort (hottCheckSerialData (sample_env 4704 []) 4704
                        sample_before_rollover)) = [].
Proof.
  assert (H1 : 0 <= 4294967000 < 4294967296) by lia.
  assert (H2 : 0 <= 5000 < 4294967296) by lia.
  split; [exact H1|]. split; [exact H2|].
  split; [reflexivity|]. split; [reflexivity|]. split; [reflexivity|].
  split; [reflexivity|]. split; [reflexivity|].
  destruct (timers_survive_clock_rollover (sample_env 4704 [])
              sample_before_rollover 128 142 4294967000 5000
              H1 H2 eq_refl eq_refl eq_refl eq_refl) as (_ & _ & H).
  apply H. vm_compute. discriminate.
Defined.
